(** * Verification model of [v1_train_capsnet.py]

    A shallow embedding of the capsule-network training script: the
    configuration constants and the paths derived from them, the path
    validation against a model of the file system, the data loader, the
    margin loss, the callback factory and the [train] driver.

    Conventions.
    - Python [str] is [string]; [os.path] functions are the POSIX ones.
    - Python [float] and [float32] tensors are modelled by exact rationals
      [Q]: the arithmetic of the script is read with its real-number
      meaning, rounding is not modelled.
    - Calls into Keras, TensorFlow, SciPy, NumPy's random generator,
      matplotlib and the Telegram callback are calls to an external
      [framework]: each one is recorded in the trace of the [world] and its
      outcome (a value or a raised exception) is given by the framework. *)

From stdpp Require Import gmap strings list fin_maps.
From Stdlib Require Import Ascii String QArith Qminmax Qpower Permutation.

Open Scope string_scope.

(** ** Strings: the fragment of [str] the script uses *)

Definition slash : ascii := "/"%char.
Definition dot : ascii := "."%char.

(** [str.format] with positional [{}] fields only.  With fewer arguments
    than fields Python raises [IndexError]; no call of the script does, and
    the model leaves such a field in place. *)
Fixpoint format (s : string) (args : list string) : string :=
  match s with
  | EmptyString => EmptyString
  | String c rest =>
      match c, rest, args with
      | "{"%char, String "}"%char rest', a :: args' => a +:+ format rest' args'
      | _, _, _ => String c (format rest args)
      end
  end.

(** [str.upper] on ASCII. *)
Definition upper_ascii (c : ascii) : ascii :=
  let n := nat_of_ascii c in
  if (97 <=? n)%nat && (n <=? 122)%nat then ascii_of_nat (n - 32) else c.

Fixpoint upper (s : string) : string :=
  match s with
  | EmptyString => EmptyString
  | String c r => String (upper_ascii c) (upper r)
  end.

Definition is_empty_str (s : string) : bool :=
  match s with EmptyString => true | _ => false end.

Definition startswith_sep (s : string) : bool :=
  match s with String c _ => Ascii.eqb c slash | EmptyString => false end.

Fixpoint endswith_sep (s : string) : bool :=
  match s with
  | EmptyString => false
  | String c EmptyString => Ascii.eqb c slash
  | String _ r => endswith_sep r
  end.

(** [posixpath.join(path, b)]. *)
Definition path_join (path b : string) : string :=
  if startswith_sep b then b
  else if is_empty_str path || endswith_sep path then path +:+ b
  else path +:+ "/" +:+ b.

(** The components of a path: the maximal runs of characters other than
    ['/'].  This is how the kernel resolves a relative path from the
    working directory (no component of the script's paths is ['.'] or
    ['..']). *)
Fixpoint components_go (cur : string) (s : string) : list string :=
  match s with
  | EmptyString => if is_empty_str cur then [] else [cur]
  | String c r =>
      if Ascii.eqb c slash
      then (if is_empty_str cur then components_go EmptyString r
            else cur :: components_go EmptyString r)
      else components_go (cur +:+ String c EmptyString) r
  end.

Definition components (p : string) : list string := components_go EmptyString p.


(** ** Configuration (lines 45-71 of the script) *)

Definition ARCHITECTURE : string := "capsnet".
Definition DECODER_NAME : string := "decoder".
Definition INPUT_DSHAPE : nat * nat * nat := (104, 104, 3)%nat.
Definition NUM_TCLASSES : nat := 10.

Definition DATASET_ID : string := "synthetic_digits".
Definition DATA_TRAIN : string :=
  format "data/{}/data_train_104x104/data.mat" [DATASET_ID].
Definition DATA_VALID : string :=
  format "data/{}/data_valid_104x104/data.mat" [DATASET_ID].
Definition IMAGE_SIZE : nat * nat * nat := (104, 104, 3)%nat.
Definition BATCH_SIZE : nat := 50.
Definition NUM_EPOCHS : nat := 100.
Definition LEARN_RATE : Q := 1 # 1000.
Definition DECAY_RATE : Q := 9 # 10.
Definition RECON_COEF : Q := 5 # 10000.
Definition N_ROUTINGS : nat := 3.
Definition OUTPUT_DIR : string :=
  format "output/{}/{}/" [DATASET_ID; ARCHITECTURE].

(** [AUTH_TOKEN = None] and [TELCHAT_ID = None]. *)
Definition AUTH_TOKEN : option string := None.
Definition TELCHAT_ID : option string := None.

Definition F_SHUTDOWN : bool := false.

(** ** Paths (lines 83-96) *)

Definition mdl_dir : string := path_join OUTPUT_DIR "models".
Definition mdl_train_file : string :=
  path_join mdl_dir (format "{}_train.json" [ARCHITECTURE]).
Definition mdl_evaln_file : string :=
  path_join mdl_dir (format "{}.json" [ARCHITECTURE]).

Definition log_dir : string := path_join OUTPUT_DIR "logs".
Definition cpt_dir : string := path_join OUTPUT_DIR "checkpoints".
Definition tbd_dir : string := path_join OUTPUT_DIR "tensorboard".

Definition log_file : string := path_join log_dir "training.csv".
Definition cpt_best : string :=
  path_join cpt_dir (format "{}_best.h5" [ARCHITECTURE]).
Definition cpt_last : string :=
  path_join cpt_dir (format "{}_last.h5" [ARCHITECTURE]).

(** ** Tensors and the Keras backend operations used by [margin_loss] *)

Abbreviation float32 := Q.
Abbreviation tensor1 := (list float32).
Abbreviation tensor2 := (list (list float32)).

Definition same_shape (a b : tensor2) : Prop :=
  Forall2 (fun r s : list float32 => List.length r = List.length s) a b.

(** Element-wise operations.  The script applies them to a label tensor
    and a prediction tensor of the same shape [(batch, classes)]. *)
Definition t_map (f : float32 -> float32) (t : tensor2) : tensor2 :=
  map (map f) t.
Definition t_zip (f : float32 -> float32 -> float32) (a b : tensor2) : tensor2 :=
  zip_with (zip_with f) a b.

(** [c - t], [t - c] and [c * t] with a Python scalar [c]. *)
Definition scalar_sub (c : Q) (t : tensor2) : tensor2 := t_map (fun v => c - v)%Q t.
Definition sub_scalar (t : tensor2) (c : Q) : tensor2 := t_map (fun v => v - c)%Q t.
Definition scalar_mul (c : Q) (t : tensor2) : tensor2 := t_map (fun v => c * v)%Q t.
Definition t_mul : tensor2 -> tensor2 -> tensor2 := t_zip Qmult.
Definition t_add : tensor2 -> tensor2 -> tensor2 := t_zip Qplus.

(** [backend.maximum(c, t)], [backend.square(t)], [backend.sum(t, 1)] and
    [backend.mean(v)].  The mean of an empty tensor is NaN in the
    framework; here it is [0 / 0 = 0] of [Q]. *)
Definition backend_maximum (c : Q) (t : tensor2) : tensor2 := t_map (Qmax c) t.
Definition backend_square (t : tensor2) : tensor2 := t_map (fun v => v * v)%Q t.
Definition Qsum (v : list Q) : Q := fold_right Qplus 0%Q v.
Definition backend_sum_axis1 (t : tensor2) : tensor1 := map Qsum t.
Definition backend_mean (v : tensor1) : float32 :=
  (Qsum v / inject_Z (Z.of_nat (List.length v)))%Q.

(** ** [margin_loss] (lines 151-155) *)

Definition margin_loss (y_true y_pred : tensor2) : float32 :=
  let loss :=
    t_add
      (t_mul y_true
         (backend_square (backend_maximum 0 (scalar_sub (9 # 10) y_pred))))
      (t_mul (scalar_mul (1 # 2) (scalar_sub 1 y_true))
         (backend_square (backend_maximum 0 (sub_scalar y_pred (1 # 10)))))
  in
  backend_mean (backend_sum_axis1 loss).

(** The loss as the specification words it: the mean over the samples of
    the sum over the classes of
    [y_true * max(0, 0.9 - y_pred)^2 + 0.5 * (1 - y_true) * max(0, y_pred - 0.1)^2],
    written with explicit indices. *)
Definition margin_term (t p : Q) : Q :=
  (t * Qmax 0 ((9 # 10) - p) ^ 2
   + (1 # 2) * (1 - t) * Qmax 0 (p - (1 # 10)) ^ 2)%Q.

Definition entry (t : tensor2) (i j : nat) : Q := nth j (nth i t []) 0%Q.

Definition sum_upto (n : nat) (f : nat -> Q) : Q := Qsum (map f (seq 0 n)).

Definition margin_loss_spec (y_true y_pred : tensor2) : Q :=
  let samples := List.length y_true in
  (sum_upto samples (fun i =>
     sum_upto (List.length (nth i y_true []))
       (fun j => margin_term (entry y_true i j) (entry y_pred i j)))
   / inject_Z (Z.of_nat samples))%Q.

(** ** The learning-rate schedule (line 215)

    [lambda epoch: LEARN_RATE * (DECAY_RATE**epoch)]; Keras calls it with
    the zero-based epoch index. *)
Definition lr_schedule (epoch : nat) : Q :=
  (LEARN_RATE * DECAY_RATE ^ Z.of_nat epoch)%Q.

(** ** Exceptions and results *)

Inductive exn : Type :=
| FileExistsError (p : list string)
| FileNotFoundError (p : list string)
| NotADirectoryError (p : list string)
| IsADirectoryError (p : list string)
| KeyError (key : string)
| ValueError (what : string)
| IndexError (what : string)
| External (what : string).   (* an exception raised inside the framework *)

Inductive result (A : Type) : Type :=
| Ok (a : A)
| Raise (e : exn).
Arguments Ok {A} a.
Arguments Raise {A} e.

(** ** The file system

    A finite map from the components of a path, relative to the working
    directory, to the kind of node found there.  The working directory
    itself is the empty path.  Symbolic links and permissions are not
    modelled. *)

Inductive node : Type := File | Dir.

Global Instance node_eq_dec : EqDecision node.
Proof. solve_decision. Defined.

Abbreviation filesystem := (gmap (list string) node).

Definition fs_lookup (fs : filesystem) (p : list string) : option node :=
  match p with
  | [] => Some Dir
  | _ => fs !! p
  end.

Definition parent (p : list string) : list string := removelast p.

(** Every node sits in a directory. *)
Definition fs_wf (fs : filesystem) : bool :=
  forallb (fun e : list string * node =>
             match fs_lookup fs (parent e.1) with
             | Some Dir => negb (bool_decide (e.1 = []))
             | _ => false
             end)
          (map_to_list fs).

Definition exists_b (fs : filesystem) (p : list string) : bool :=
  match fs_lookup fs p with Some _ => true | None => false end.
Definition isfile_b (fs : filesystem) (p : list string) : bool :=
  match fs_lookup fs p with Some File => true | _ => false end.
Definition isdir_b (fs : filesystem) (p : list string) : bool :=
  match fs_lookup fs p with Some Dir => true | _ => false end.

(** [os.mkdir]. *)
Definition mkdir (p : list string) (fs : filesystem) : result unit * filesystem :=
  match fs_lookup fs p with
  | Some _ => (Raise (FileExistsError p), fs)
  | None =>
      match fs_lookup fs (parent p) with
      | None => (Raise (FileNotFoundError p), fs)
      | Some File => (Raise (NotADirectoryError p), fs)
      | Some Dir => (Ok tt, <[p := Dir]> fs)
      end
  end.

(** [os.makedirs(name)] with [exist_ok=False], by recursion on the
    reversed components: [posixpath.split] peels the last component off
    (after a trailing slash, which [components] has already dropped), the
    missing head is created first, a [FileExistsError] from that recursive
    call is swallowed, and the leaf is created with [os.mkdir]. *)
Fixpoint makedirs_rev (rname : list string) (fs : filesystem)
  : result unit * filesystem :=
  match rname with
  | [] => mkdir [] fs
  | _ :: rhead =>
      let head := rev rhead in
      let fs1 :=
        if negb (bool_decide (head = [])) && negb (exists_b fs head)
        then match makedirs_rev rhead fs with
             | (Ok _, fs') => (Ok tt, fs')
             | (Raise (FileExistsError _), fs') => (Ok tt, fs')
             | (Raise e, fs') => (Raise e, fs')
             end
        else (Ok tt, fs)
      in
      match fs1 with
      | (Ok _, fs') => mkdir (rev rname) fs'
      | (Raise e, fs') => (Raise e, fs')
      end
  end.

Definition makedirs (p : list string) (fs : filesystem) : result unit * filesystem :=
  makedirs_rev (rev p) fs.

(** [open(p, 'w')] followed by a write and close. *)
Definition create_file (p : list string) (fs : filesystem) : result unit * filesystem :=
  match fs_lookup fs p with
  | Some Dir => (Raise (IsADirectoryError p), fs)
  | _ =>
      match fs_lookup fs (parent p) with
      | None => (Raise (FileNotFoundError p), fs)
      | Some File => (Raise (NotADirectoryError p), fs)
      | Some Dir => (Ok tt, <[p := File]> fs)
      end
  end.

(** *** [glob] *)

(** [fnmatch.fnmatch] for patterns made of literal characters, [*] and
    [?] (bracket classes are not modelled; no pattern of the script has
    one). *)
Fixpoint fnmatch (pat name : string) {struct pat} : bool :=
  match pat with
  | EmptyString => is_empty_str name
  | String c pat' =>
      if Ascii.eqb c "*"%char then
        (fix star (s : string) : bool :=
           fnmatch pat' s
           || match s with
              | EmptyString => false
              | String _ s' => star s'
              end) name
      else
        match name with
        | EmptyString => false
        | String c' name' =>
            (Ascii.eqb c "?"%char || Ascii.eqb c c') && fnmatch pat' name'
        end
  end.

Definition ishidden (name : string) : bool :=
  match name with String c _ => Ascii.eqb c dot | EmptyString => false end.

Fixpoint contains_char (c : ascii) (s : string) : bool :=
  match s with
  | EmptyString => false
  | String c' r => Ascii.eqb c c' || contains_char c r
  end.

Definition has_magic (s : string) : bool :=
  contains_char "*"%char s || contains_char "?"%char s || contains_char "["%char s.

(** [posixpath.split]. *)
Fixpoint split_last (s : string) : option (string * string) :=
  match s with
  | EmptyString => None
  | String c r =>
      match split_last r with
      | Some (h, t) => Some (String c h, t)
      | None => if Ascii.eqb c slash then Some (String c EmptyString, r) else None
      end
  end.

Fixpoint rstrip_sep (s : string) : string :=
  match s with
  | EmptyString => EmptyString
  | String c r =>
      let r' := rstrip_sep r in
      if is_empty_str r' && Ascii.eqb c slash then EmptyString else String c r'
  end.

Definition path_split (p : string) : string * string :=
  match split_last p with
  | None => (EmptyString, p)
  | Some (h, t) => (if is_empty_str (rstrip_sep h) then h else rstrip_sep h, t)
  end.

(** The names in a directory ([os.scandir]); none if it cannot be
    listed. *)
Definition entry_name (d : list string) (p : list string) : option string :=
  match p with
  | [] => None
  | _ => if bool_decide (parent p = d) then Some (List.last p EmptyString) else None
  end.

Definition listdir (fs : filesystem) (d : list string) : list string :=
  if isdir_b fs d then omap (fun e : list string * node => entry_name d e.1) (map_to_list fs)
  else [].

(** [glob.glob(pathname)] for a [pathname] whose directory part has no
    wildcard: the names of the directory that match the last component,
    hidden names excluded unless the pattern itself starts with a dot. *)
Definition glob (fs : filesystem) (pathname : string) : list string :=
  let (dirname, basename) := path_split pathname in
  if has_magic basename then
    let names := listdir fs (components dirname) in
    let names := if ishidden basename then names
                 else filter (fun n => negb (ishidden n) = true) names in
    map (path_join dirname) (filter (fun n => fnmatch basename n = true) names)
  else if exists_b fs (components pathname) then [pathname] else [].

(** ** NumPy arrays as the loader uses them *)

(** The ['data'] matrix of a [.mat] file: a list of rows. *)
Abbreviation matrix := (list (list Z)).

(** An image of shape [(h, w, c)], and a batch of them. *)
Abbreviation image A := (list (list (list A))).
Abbreviation images := (list (image float32)).

(** Consecutive groups of [n] elements (row-major reshape of the last
    axis). *)
Fixpoint chunk_fuel {A} (fuel n : nat) (l : list A) : list (list A) :=
  match fuel with
  | O => []
  | S fuel' =>
      match l with
      | [] => []
      | _ => take n l :: chunk_fuel fuel' n (drop n l)
      end
  end.

Definition chunk {A} (n : nat) (l : list A) : list (list A) :=
  chunk_fuel (List.length l) n l.

(** [a.reshape((-1,) + shape)] on the row-major elements [flat] of [a]. *)
Definition reshape_batch {A} (shape : nat * nat * nat) (flat : list A)
  : result (list (image A)) :=
  let '(h, w, c) := shape in
  let n := (h * w * c)%nat in
  if (n =? 0)%nat then Raise (ValueError "cannot reshape array")
  else if (List.length flat mod n =? 0)%nat
       then Ok (chunk h (chunk w (chunk c flat)))
       else Raise (ValueError "cannot reshape array").

(** [sample.reshape(shape)] on one row. *)
Definition reshape_sample {A} (shape : nat * nat * nat) (sample : list A)
  : result (image A) :=
  let '(h, w, c) := shape in
  let n := (h * w * c)%nat in
  if (n =? 0)%nat then Raise (ValueError "cannot reshape array")
  else if (List.length sample =? n)%nat
       then Ok (chunk w (chunk c sample))
       else Raise (ValueError "cannot reshape array").

(** [data[:, 1:]] and [data[:, 0]]. *)
Definition columns_from_1 (data : matrix) : list (list Z) := map (drop 1) data.

Fixpoint column_0 (data : matrix) : result (list Z) :=
  match data with
  | [] => Ok []
  | [] :: _ => Raise (IndexError "index 0 is out of bounds for axis 1")
  | (v :: _) :: rest =>
      match column_0 rest with
      | Ok vs => Ok (v :: vs)
      | Raise e => Raise e
      end
  end.

(** [a.astype('float32') / 255.0], element by element. *)
Definition to_unit_range (v : Z) : float32 := (inject_Z v / 255)%Q.

Definition scale_image (x : image Z) : image float32 :=
  map (map (map to_unit_range)) x.

(** [keras.utils.to_categorical(y)] without [num_classes]: the number of
    classes is [max(y) + 1], and row [i] is zero but for a one at index
    [y[i]] (a negative index counts from the end, as NumPy indexing
    does). *)
Definition one_hot (num_classes : nat) (k : nat) : list float32 :=
  map (fun j => if (j =? k)%nat then 1%Q else 0%Q) (seq 0 num_classes).

Definition class_index (num_classes : Z) (y : Z) : result nat :=
  if (0 <=? y)%Z && (y <? num_classes)%Z then Ok (Z.to_nat y)
  else if (- num_classes <=? y)%Z && (y <? 0)%Z then Ok (Z.to_nat (y + num_classes))
  else Raise (IndexError "index is out of bounds for axis 1").

Fixpoint mapM_result {A B} (f : A -> result B) (l : list A) : result (list B) :=
  match l with
  | [] => Ok []
  | a :: rest =>
      match f a with
      | Raise e => Raise e
      | Ok b =>
          match mapM_result f rest with
          | Ok bs => Ok (b :: bs)
          | Raise e => Raise e
          end
      end
  end.

Definition max_label (y : list Z) : option Z :=
  match y with
  | [] => None
  | v :: rest => Some (fold_left Z.max rest v)
  end.

Definition to_categorical (y : list Z) : result tensor2 :=
  match max_label y with
  | None => Raise (ValueError "zero-size array to reduction operation maximum")
  | Some m =>
      let num_classes := (m + 1)%Z in
      if (num_classes <? 0)%Z then Raise (ValueError "negative dimensions are not allowed")
      else mapM_result
             (fun v => match class_index num_classes v with
                       | Ok k => Ok (one_hot (Z.to_nat num_classes) k)
                       | Raise e => Raise e
                       end) y
  end.

Definition shape_eqb (a b : nat * nat * nat) : bool :=
  let '(h1, w1, c1) := a in
  let '(h2, w2, c2) := b in
  (h1 =? h2)%nat && (w1 =? w2)%nat && (c1 =? c2)%nat.

(** ** Framework objects *)

(** A Keras model is an opaque handle. *)
Definition model : Type := nat.

(** [History.history]: a [dict] from metric name to its per-epoch values. *)
Abbreviation history := (gmap string (list Q)).

Inductive callback : Type :=
| CSVLogger (filename : string) (append : bool)
| EarlyStopping (monitor : string) (min_delta : Q) (patience verbose : nat)
| LearningRateScheduler (schedule : nat -> Q) (verbose : nat)
| ModelCheckpoint (filepath monitor : string)
    (save_best_only save_weights_only : bool) (verbose : nat)
| TensorBoard (log_dir : string) (batch_size : nat) (write_grads write_images : bool)
| Telegram (auth_token chat_id : option string) (monitor out_dir : string)
    (task_id : string).

(** The [dict] handed to [Telegram._send_message]. *)
Record message : Type := Message {
  chat_id : option string;
  text : string;
  parse_mode : string
}.

Abbreviation dataset := (images * tensor2)%type.

(** A call that leaves the script, with its arguments. *)
Inductive call : Type :=
| CallLoadmat (file : string)
| CallShuffle (data : matrix)
| CallResize (x : image Z) (dsize : nat * nat)
| CallBuildModel
| CallSummary (m : model)
| CallToJson (m : model)
| CallOpenWrite (file content : string)
| CallTelegram (auth_token chat_id : option string) (monitor out_dir : string)
| CallSendMessage (cb : callback) (data : message)
| CallFit (m : model) (train_set valid_set : dataset) (batch_size epochs : nat)
    (cbs : list callback)
| CallPyplot (what arg : string)
| CallSavefig (file : string).

(** What the framework answers.  Every answer may depend on the calls made
    so far, which stands for the state hidden in the framework (the random
    generator, the network, the TensorFlow session). *)
Record framework : Type := Framework {
  fw_loadmat : list call -> string -> result matrix;
  fw_shuffle : list call -> matrix -> matrix;
  fw_resize : list call -> image Z -> nat * nat -> result (image Z);
  fw_build : list call -> result (model * model);
  fw_summary : list call -> model -> result unit;
  fw_to_json : list call -> model -> result string;
  fw_telegram : list call -> result string;
  fw_send_message : list call -> callback -> message -> result unit;
  fw_fit : list call -> model -> dataset -> dataset -> nat -> nat ->
           list callback -> result history;
  fw_pyplot : list call -> string -> string -> result unit
}.

(** ** The state of a run and the monad of the script *)

Record world : Type := World {
  w_fs : filesystem;        (* the disk *)
  w_out : list string;      (* what was written to standard output *)
  w_trace : list call       (* the calls made so far, oldest first *)
}.

Definition M (A : Type) : Type := world -> result A * world.

Definition ret {A} (a : A) : M A := fun w => (Ok a, w).

Definition bind {A B} (m : M A) (k : A -> M B) : M B :=
  fun w =>
    match m w with
    | (Ok a, w') => k a w'
    | (Raise e, w') => (Raise e, w')
    end.

Notation "x <- m ;; k" := (bind m (fun x => k))
  (at level 100, m at next level, right associativity).
Notation "m ;;; k" := (bind m (fun _ => k))
  (at level 100, right associativity).

Definition lift {A} (r : result A) : M A := fun w => (r, w).

(** [print(s)] and [print(s, end='')]. *)
Definition newline : string := String (ascii_of_nat 10) EmptyString.

Definition print_end (s : string) : M unit :=
  fun w => (Ok tt, World (w_fs w) (w_out w ++ [s])%list (w_trace w)).
Definition print (s : string) : M unit := print_end (s +:+ newline).

(** An operation on the disk. *)
Definition on_fs {A} (f : filesystem -> result A * filesystem) : M A :=
  fun w => let (r, fs') := f (w_fs w) in (r, World fs' (w_out w) (w_trace w)).

Definition os_path_isfile (p : string) : M bool :=
  on_fs (fun fs => (Ok (isfile_b fs (components p)), fs)).
Definition os_path_isdir (p : string) : M bool :=
  on_fs (fun fs => (Ok (isdir_b fs (components p)), fs)).
Definition os_makedirs (p : string) : M unit :=
  on_fs (makedirs (components p)).
Definition glob_glob (pathname : string) : M (list string) :=
  on_fs (fun fs => (Ok (glob fs pathname), fs)).

(** A call into the framework: it is appended to the trace, and the
    framework answers from the trace before it. *)
Definition extern {A} (c : call) (answer : list call -> result A) : M A :=
  fun w => (answer (w_trace w), World (w_fs w) (w_out w) (w_trace w ++ [c])%list).

(** [with open(file, 'w') as f: f.write(content)]. *)
Definition open_write (file content : string) : M unit :=
  on_fs (create_file (components file)) ;;;
  extern (CallOpenWrite file content) (fun _ => Ok tt).

(** A [for] loop that updates a local variable. *)
Fixpoint for_each {A S} (items : list A) (body : A -> S -> M S) (s : S) : M S :=
  match items with
  | [] => ret s
  | x :: rest => s' <- body x s ;; for_each rest body s'
  end.

(** ** [validate_paths] (lines 100-113) *)

Definition check_file (file : string) (flag : bool) : M bool :=
  found <- os_path_isfile file ;;
  if negb found then
    print (format "[INFO] Data not found at {}" [file]) ;;;
    ret false
  else ret flag.

Definition check_directory (directory : string) (flag : bool) : M bool :=
  present <- os_path_isdir directory ;;
  if negb present then
    os_makedirs directory ;;;
    ret flag
  else
    found <- glob_glob (path_join directory "*.*") ;;
    if (0 <? List.length found)%nat then
      print (format "[INFO] Output directory {} must be empty" [directory]) ;;;
      ret false
    else ret flag.

Definition data_files : list string := [DATA_TRAIN; DATA_VALID].
Definition output_dirs : list string :=
  [OUTPUT_DIR; mdl_dir; log_dir; cpt_dir; tbd_dir].

Definition validate_paths : M bool :=
  flag <- for_each data_files check_file true ;;
  flag <- for_each output_dirs check_directory flag ;;
  ret flag.

Section Script.

Context (fw : framework).

(** ** [load_data] (lines 117-147) *)

Definition loadmat_data (file : string) : M matrix :=
  extern (CallLoadmat file) (fun t => fw_loadmat fw t file).

(** [numpy.random.shuffle(data)]: the rows are reordered in place; the
    model rebinds the name to the reordered matrix. *)
Definition numpy_random_shuffle (data : matrix) : M matrix :=
  extern (CallShuffle data) (fun t => Ok (fw_shuffle fw t data)).

Definition cv2_resize (x : image Z) (dsize : nat * nat) : M (image Z) :=
  extern (CallResize x dsize) (fun t => fw_resize fw t x dsize).

Definition load_images (data : matrix) : M images :=
  if shape_eqb IMAGE_SIZE INPUT_DSHAPE then
    x <- lift (reshape_batch INPUT_DSHAPE (List.concat (columns_from_1 data))) ;;
    ret (map scale_image x)
  else
    x <- for_each (columns_from_1 data)
           (fun sample acc =>
              x <- lift (reshape_sample IMAGE_SIZE sample) ;;
              x <- cv2_resize x (INPUT_DSHAPE.1.1, INPUT_DSHAPE.1.2) ;;
              ret (acc ++ [x])%list) [] ;;
    ret (map scale_image x).

Definition load_labels (data : matrix) : M tensor2 :=
  y <- lift (column_0 data) ;;
  lift (to_categorical y).

Definition load_data : M (dataset * dataset) :=
  data_train <- loadmat_data DATA_TRAIN ;;
  data_valid <- loadmat_data DATA_VALID ;;
  data_train <- numpy_random_shuffle data_train ;;
  data_valid <- numpy_random_shuffle data_valid ;;
  x_train <- load_images data_train ;;
  x_valid <- load_images data_valid ;;
  y_train <- load_labels data_train ;;
  y_valid <- load_labels data_valid ;;
  ret ((x_train, y_train), (x_valid, y_valid)).

(** ** [build_model] (lines 159-208)

    The layer graph is assembled and compiled by framework constructors
    alone; the model keeps this as one step that yields the training and
    the evaluation model or raises. *)
Definition build_model : M (model * model) :=
  extern CallBuildModel (fw_build fw).

(** ** [callbacks] (lines 212-221) *)

Definition new_telegram (auth_token chat_id : option string)
    (monitor out_dir : string) : M callback :=
  task_id <- extern (CallTelegram auth_token chat_id monitor out_dir) (fw_telegram fw) ;;
  ret (Telegram auth_token chat_id monitor out_dir task_id).

Definition callbacks : M (list callback) :=
  let cb_log := CSVLogger log_file true in
  let cb_stp := EarlyStopping (format "val_{}_loss" [ARCHITECTURE]) 0 10 1 in
  let cb_lrs := LearningRateScheduler lr_schedule 0 in
  let cb_cpt_best :=
    ModelCheckpoint cpt_best (format "val_{}_acc" [ARCHITECTURE]) true true 1 in
  let cb_cpt_last :=
    ModelCheckpoint cpt_last (format "val_{}_acc" [ARCHITECTURE]) false true 0 in
  let cb_tbd := TensorBoard tbd_dir BATCH_SIZE true true in
  cb_tel <- new_telegram AUTH_TOKEN TELCHAT_ID
              (format "val_{}_acc" [ARCHITECTURE]) OUTPUT_DIR ;;
  ret [cb_log; cb_stp; cb_lrs; cb_cpt_best; cb_cpt_last; cb_tbd; cb_tel].

(** ** [plot] (lines 225-258) *)

Definition pyplot (what arg : string) : M unit :=
  extern (CallPyplot what arg) (fun t => fw_pyplot fw t what arg).

Definition pyplot_savefig (file : string) : M unit :=
  extern (CallSavefig file) (fun t => fw_pyplot fw t "savefig" file).

(** [pyplot.plot(train_history.history[key], label=key)]. *)
Definition plot_series (h : history) (key : string) : M unit :=
  match h !! key with
  | None => lift (Raise (KeyError key))
  | Some _ => pyplot "plot" key
  end.

Definition plot (train_history : history) : M unit :=
  pyplot "figure" EmptyString ;;;
  plot_series train_history "loss" ;;;
  plot_series train_history "val_loss" ;;;
  plot_series train_history (format "{}_loss" [ARCHITECTURE]) ;;;
  plot_series train_history (format "val_{}_loss" [ARCHITECTURE]) ;;;
  plot_series train_history (format "{}_loss" [DECODER_NAME]) ;;;
  plot_series train_history (format "val_{}_loss" [DECODER_NAME]) ;;;
  pyplot "title" "Training and Validation Loss" ;;;
  pyplot "xlabel" "epoch" ;;;
  pyplot "ylabel" "loss" ;;;
  pyplot "legend" EmptyString ;;;
  pyplot_savefig (path_join log_dir "plot_loss.png") ;;;
  pyplot "show" EmptyString ;;;
  pyplot "figure" EmptyString ;;;
  plot_series train_history (format "{}_acc" [ARCHITECTURE]) ;;;
  plot_series train_history (format "val_{}_acc" [ARCHITECTURE]) ;;;
  pyplot "title" "Training and Validation Accuracy" ;;;
  pyplot "xlabel" "epoch" ;;;
  pyplot "ylabel" "accuracy" ;;;
  pyplot "legend" EmptyString ;;;
  pyplot_savefig (path_join log_dir "plot_accuracy.png") ;;;
  pyplot "show" EmptyString ;;;
  ret tt.

(** ** [train] (lines 262-312) *)

(** [cb_list[-1]._task_id]. *)
Definition last_task_id (cb_list : list callback) : M (callback * string) :=
  match last cb_list with
  | None => lift (Raise (IndexError "list index out of range"))
  | Some (Telegram a c m o task_id) => ret (Telegram a c m o task_id, task_id)
  | Some _ => lift (Raise (External "AttributeError"))
  end.

Definition acknowledgement (task_id : string) : message :=
  Message TELCHAT_ID
    (format ("`Received a new training request." +:+ newline
             +:+ "TASK ID: {}" +:+ newline
             +:+ "MODEL  : {}" +:+ newline
             +:+ "DATASET: {}`")
       [task_id; upper ARCHITECTURE; upper DATASET_ID])
    "Markdown".

Definition send_message (cb : callback) (data : message) : M unit :=
  extern (CallSendMessage cb data) (fun t => fw_send_message fw t cb data).

Definition model_fit (m : model) (train_set valid_set : dataset)
    (batch_size epochs : nat) (cbs : list callback) : M history :=
  extern (CallFit m train_set valid_set batch_size epochs cbs)
    (fun t => fw_fit fw t m train_set valid_set batch_size epochs cbs).

Definition train : M unit :=
  ok <- validate_paths ;;
  if negb ok then ret tt
  else
    print_end "[INFO] Loading data... " ;;;
    d <- load_data ;;
    let '((x_train, y_train), (x_valid, y_valid)) := d in
    print "done" ;;;
    print_end "[INFO] Building model... " ;;;
    ms <- build_model ;;
    let '(model_train, model_evaln) := ms in
    print "done" ;;;
    extern (CallSummary model_train) (fun t => fw_summary fw t model_train) ;;;
    extern (CallSummary model_evaln) (fun t => fw_summary fw t model_evaln) ;;;
    model_train_json <- extern (CallToJson model_train)
                          (fun t => fw_to_json fw t model_train) ;;
    model_evaln_json <- extern (CallToJson model_evaln)
                          (fun t => fw_to_json fw t model_evaln) ;;
    open_write mdl_train_file model_train_json ;;;
    open_write mdl_evaln_file model_evaln_json ;;;
    cb_list <- callbacks ;;
    tel <- last_task_id cb_list ;;
    send_message tel.1 (acknowledgement tel.2) ;;;
    train_history <- model_fit model_train (x_train, y_train) (x_valid, y_valid)
                       BATCH_SIZE NUM_EPOCHS cb_list ;;
    plot train_history ;;;
    ret tt.

End Script.

(** ** The conditions [validate_paths] tests, stated on the disk *)

(** A name that the pattern ['*.*'] selects: it has a dot and does not
    start with one. *)
Definition star_dot_star (name : string) : bool :=
  negb (ishidden name) && contains_char dot name.

(** The directory holds an entry that ['*.*'] selects. *)
Definition dirty (fs : filesystem) (directory : string) : bool :=
  existsb star_dot_star (listdir fs (components directory)).

Definition data_present (fs : filesystem) : bool :=
  forallb (fun file => isfile_b fs (components file)) data_files.

Definition outputs_clean (fs : filesystem) : bool :=
  forallb (fun d => negb (isdir_b fs (components d) && dirty fs d)) output_dirs.

(** The lines [validate_paths] prints. *)
Definition data_reports (fs : filesystem) (files : list string) : list string :=
  map (fun file => format "[INFO] Data not found at {}" [file] +:+ newline)
    (filter (fun file => isfile_b fs (components file) = false) files).

Definition directory_reports (fs : filesystem) (dirs : list string) : list string :=
  map (fun d => format "[INFO] Output directory {} must be empty" [d] +:+ newline)
    (filter (fun d => isdir_b fs (components d) && dirty fs d = true) dirs).

(** No regular file sits at the path [p] or at one of its ancestors, so
    that [os.makedirs] can create what is missing of [p]. *)
Definition unobstructed (fs : filesystem) (p : list string) : bool :=
  forallb (fun k => negb (isfile_b fs (take (S k) p))) (seq 0 (List.length p)).

Definition creatable (fs : filesystem) : bool :=
  forallb (fun d => unobstructed fs (components d)) output_dirs.

(** ** What the loader is expected to return, row by row *)

Definition pixels_per_image : nat :=
  let '(h, w, c) := INPUT_DSHAPE in (h * w * c)%nat.

(** A dataset matrix: at least one row; every row is a class label, which
    is not negative, followed by the pixels of one image. *)
Definition well_formed (data : matrix) : Prop :=
  data <> []
  /\ Forall (fun row => List.length row = S pixels_per_image /\ (0 <= hd 0 row)%Z) data.

(** Columns [1..] of a row, reshaped to [INPUT_DSHAPE], as [float32]
    divided by [255.0]. *)
Definition image_of_row (row : list Z) : image float32 :=
  let '(_, w, c) := INPUT_DSHAPE in
  map (map (map (fun v => inject_Z v / 255)%Q)) (chunk w (chunk c (drop 1 row))).

(** The number of classes [to_categorical] infers and the one-hot
    encoding of column [0] of a row. *)
Definition classes (data : matrix) : nat :=
  match max_label (map (hd 0%Z) data) with
  | Some m => Z.to_nat (m + 1)
  | None => O
  end.

Definition label_of_row (num_classes : nat) (row : list Z) : list float32 :=
  one_hot num_classes (Z.to_nat (hd 0%Z row)).

(** An array of shape [(h, w, c)]. *)
Definition has_shape {A} (shape : nat * nat * nat) (x : image A) : Prop :=
  let '(h, w, c) := shape in
  List.length x = h
  /\ Forall (fun r => List.length r = w /\ Forall (fun px => List.length px = c) r) x.

(** The two matrices after [numpy.random.shuffle], for a run whose trace
    was [t0] when [load_data] started. *)
Definition shuffled_train (fw : framework) (t0 : list call) (train : matrix) : matrix :=
  fw_shuffle fw ((t0 ++ [CallLoadmat DATA_TRAIN]) ++ [CallLoadmat DATA_VALID])%list train.

Definition shuffled_valid (fw : framework) (t0 : list call) (train valid : matrix)
  : matrix :=
  fw_shuffle fw
    (((t0 ++ [CallLoadmat DATA_TRAIN]) ++ [CallLoadmat DATA_VALID])
     ++ [CallShuffle train])%list valid.

(** The images and the labels of a matrix, row by row. *)
Definition split_rows (data : matrix) : dataset :=
  (map image_of_row data, map (label_of_row (classes data)) data).

(** [x] and [y] pair, index by index, the image and the label of one row
    of [data], and every row of [data] is used once. *)
Definition paired (data : matrix) (x : images) (y : tensor2) : Prop :=
  List.length x = List.length data
  /\ List.length y = List.length data
  /\ (forall i xi yi,
        x !! i = Some xi -> y !! i = Some yi ->
        exists row, row ∈ data
                    /\ xi = image_of_row row
                    /\ yi = label_of_row (classes data) row)
  /\ zip x y ≡ₚ map (fun row => (image_of_row row, label_of_row (classes data) row)) data.

(** The same, as a test that can be run. *)
Definition well_formed_b (data : matrix) : bool :=
  match data with
  | [] => false
  | _ =>
      forallb (fun row => (List.length row =? S pixels_per_image)%nat
                          && (0 <=? hd 0 row)%Z) data
  end.

(** ** Where the run writes *)



(** No entry of an output directory that exists has a dot in its name. *)
Definition dotless_outputs (fs : filesystem) : bool :=
  forallb (fun d => negb (isdir_b fs (components d))
                    || forallb (fun n => negb (contains_char dot n))
                         (listdir fs (components d)))
    output_dirs.

(** ** Concrete runs, used to exercise the statements below *)

(** The history of a training of one epoch. *)
Definition sample_history : history :=
  list_to_map
    [ ("loss", [1 # 2]); ("val_loss", [1 # 2]);
      ("capsnet_loss", [1 # 4]); ("val_capsnet_loss", [1 # 4]);
      ("decoder_loss", [1 # 4]); ("val_decoder_loss", [1 # 4]);
      ("capsnet_acc", [9 # 10]); ("val_capsnet_acc", [8 # 10]) ].

(** A framework that answers every call and never raises: both [.mat]
    files hold [rows], shuffling reverses the rows. *)
Definition quiet_framework (rows : matrix) : framework :=
  Framework
    (fun _ _ => Ok rows)
    (fun _ data => rev data)
    (fun _ x _ => Ok x)
    (fun _ => Ok (1, 2)%nat)
    (fun _ _ => Ok tt)
    (fun _ _ => Ok "{}")
    (fun _ => Ok "task-1")
    (fun _ _ _ => Ok tt)
    (fun _ _ _ _ _ _ _ => Ok sample_history)
    (fun _ _ _ => Ok tt).

(** A disk that holds the two data files and nothing else. *)
Definition data_only : filesystem :=
  list_to_map
    [ (["data"], Dir);
      (["data"; "synthetic_digits"], Dir);
      (["data"; "synthetic_digits"; "data_train_104x104"], Dir);
      (["data"; "synthetic_digits"; "data_valid_104x104"], Dir);
      (["data"; "synthetic_digits"; "data_train_104x104"; "data.mat"], File);
      (["data"; "synthetic_digits"; "data_valid_104x104"; "data.mat"], File) ].

Definition fresh_world (fs : filesystem) : world := World fs [] [].

(** A row with the given label and [pixels_per_image] equal pixels, and a
    matrix of two such rows. *)
Definition sample_row (label pixel : Z) : list Z :=
  label :: repeat pixel pixels_per_image.

Definition sample_data : matrix := [sample_row 2 7; sample_row 0 255].

(** The same framework, but training runs out of memory. *)
Definition failing_fit_framework (rows : matrix) : framework :=
  Framework
    (fun _ _ => Ok rows)
    (fun _ data => rev data)
    (fun _ x _ => Ok x)
    (fun _ => Ok (1, 2)%nat)
    (fun _ _ => Ok tt)
    (fun _ _ => Ok "{}")
    (fun _ => Ok "task-1")
    (fun _ _ _ => Ok tt)
    (fun _ _ _ _ _ _ _ => Raise (External "ResourceExhaustedError"))
    (fun _ _ _ => Ok tt).

(** A framework that cannot read the [.mat] files. *)
Definition failing_loadmat_framework : framework :=
  Framework
    (fun _ _ => Raise (External "FileNotFoundError"))
    (fun _ data => data)
    (fun _ x _ => Ok x)
    (fun _ => Ok (1, 2)%nat)
    (fun _ _ => Ok tt)
    (fun _ _ => Ok "{}")
    (fun _ => Ok "task-1")
    (fun _ _ _ => Ok tt)
    (fun _ _ _ _ _ _ _ => Ok ∅)
    (fun _ _ _ => Ok tt).

(** A disk with the data files and an output directory left by an earlier
    run: it holds a file and a directory whose names have no dot. *)
Definition stale_output : filesystem :=
  <[ ["output"] := Dir ]>
  (<[ ["output"; "synthetic_digits"] := Dir ]>
  (<[ ["output"; "synthetic_digits"; "capsnet"] := Dir ]>
  (<[ ["output"; "synthetic_digits"; "capsnet"; "README"] := File ]>
  (<[ ["output"; "synthetic_digits"; "capsnet"; "old_run"] := Dir ]>
   data_only)))).

(** A disk without the data files, on which a regular file named
    [output] stands where the output tree should go. *)
Definition blocked_output : filesystem :=
  <[ ["output"] := File ]> ∅.

(** A disk with the data files, and the same regular file. *)
Definition blocked_output_with_data : filesystem :=
  <[ ["output"] := File ]> data_only.

(** Two rows that hold half an image each. *)
Definition half_rows : matrix :=
  [ 1%Z :: repeat 9%Z 16224; 0%Z :: repeat 9%Z 16224 ].

(** Two rows of three pixels. *)
Definition short_rows : matrix := [ [1; 10; 20; 30]%Z; [0; 40; 50; 60]%Z ].

(** ** Auxiliary notions for the proofs *)

(** The loss of one sample, as the tensor expression computes it. *)
Definition row_loss (rt rp : list Q) : list Q :=
  zip_with Qplus
    (zip_with Qmult rt
       (map (fun v => v * v) (map (Qmax 0) (map (fun v => (9 # 10) - v) rp))))
    (zip_with Qmult (map (fun v => (1 # 2) * v) (map (fun v => 1 - v) rt))
       (map (fun v => v * v) (map (Qmax 0) (map (fun v => v - (1 # 10)) rp)))).

(** The pattern the script builds for [directory] splits back into the
    directory and ['*.*']. *)
Definition glob_ready (directory : string) : bool :=
  let split := path_split (path_join directory "*.*") in
  String.eqb split.2 "*.*"
  && bool_decide (components split.1 = components directory).

(** What a successful [os.makedirs] leaves behind: [fs'] is [fs] with
    directories added at [p] and, possibly, at ancestors of [p]. *)
Definition grown_along (fs fs' : filesystem) (p : list string) : Prop :=
  fs ⊆ fs'
  /\ forall q k, fs' !! q = Some k ->
       fs !! q = Some k \/ (k = Dir /\ q <> [] /\ q `prefix_of` p).

(** The disk [fs] of a run that started from [fs0] and has handled the
    directories [done]: nothing of [fs0] was touched, and what is new is a
    directory on the way to one of [done]. *)
Definition fs_grown (fs0 fs : filesystem) (done : list (list string)) : Prop :=
  fs0 ⊆ fs
  /\ forall q k, fs !! q = Some k ->
       fs0 !! q = Some k
       \/ (k = Dir /\ q <> [] /\ exists p, p ∈ done /\ q `prefix_of` p).

(** No directory of [ds] lies on the way to one handled before it. *)
Fixpoint dirs_ordered (done : list (list string)) (ds : list string) : bool :=
  match ds with
  | [] => true
  | d :: rest =>
      forallb (fun p => negb (bool_decide (components d `prefix_of` p))) done
      && dirs_ordered (done ++ [components d]) rest
  end.

(** No component of these paths is a name that ['*.*'] selects. *)
Definition plain_paths (ps : list (list string)) : bool :=
  forallb (forallb (fun n => negb (star_dot_star n))) ps.

(** [m] makes no call. *)
Definition silent {A} (m : M A) : Prop :=
  forall w, w_trace (m w).2 = w_trace w.

(** The exception, if any, with which the framework answers the call [c]
    made when the trace is [t]. *)
Definition raised (fw : framework) (t : list call) (c : call) : option exn :=
  let failure {A} (r : result A) : option exn :=
    match r with Ok _ => None | Raise e => Some e end in
  match c with
  | CallLoadmat file => failure (fw_loadmat fw t file)
  | CallShuffle _ => None
  | CallResize x dsize => failure (fw_resize fw t x dsize)
  | CallBuildModel => failure (fw_build fw t)
  | CallSummary m => failure (fw_summary fw t m)
  | CallToJson m => failure (fw_to_json fw t m)
  | CallOpenWrite _ _ => None
  | CallTelegram _ _ _ _ => failure (fw_telegram fw t)
  | CallSendMessage cb data => failure (fw_send_message fw t cb data)
  | CallFit m train_set valid_set batch_size epochs cbs =>
      failure (fw_fit fw t m train_set valid_set batch_size epochs cbs)
  | CallPyplot what arg => failure (fw_pyplot fw t what arg)
  | CallSavefig file => failure (fw_pyplot fw t "savefig" file)
  end.

(** The first call of the segment [t], made after [t0], that the
    framework answers with an exception, and the calls made after it. *)
Fixpoint first_raise (fw : framework) (t0 t : list call) : option (exn * list call) :=
  match t with
  | [] => None
  | c :: t' =>
      match raised fw t0 c with
      | Some e => Some (e, t')
      | None => first_raise fw (t0 ++ [c]) t'
      end
  end.

(** A run that returns [r] after the calls [t] hides no exception of the
    framework: if one was raised, the run stopped there and raised it. *)
Definition faithful {A} (fw : framework) (t0 t : list call) (r : result A) : Prop :=
  match first_raise fw t0 t with
  | None => True
  | Some (e, rest) => rest = [] /\ r = Raise e
  end.

Definition honest {A} (fw : framework) (m : M A) : Prop :=
  forall w, exists t,
    w_trace (m w).2 = (w_trace w ++ t)%list /\ faithful fw (w_trace w) t (m w).1.

(** [m] only appends calls that satisfy [P] to the trace, and a value it
    returns satisfies [Q]. *)
Definition emits {A} (P : call -> Prop) (Q : A -> Prop) (m : M A) : Prop :=
  forall w, exists t,
    w_trace (m w).2 = (w_trace w ++ t)%list
    /\ Forall P t
    /\ forall a, (m w).1 = Ok a -> Q a.

(** [m] makes a prefix of the calls [s], and all of them when it returns. *)
Definition plays {A} (m : M A) (s : list call) : Prop :=
  forall w, exists t,
    w_trace (m w).2 = (w_trace w ++ t)%list
    /\ t `prefix_of` s
    /\ forall a, (m w).1 = Ok a -> t = s.

(** The calls of [plot], in order. *)
Definition plot_calls : list call :=
  [ CallPyplot "figure" EmptyString;
    CallPyplot "plot" "loss";
    CallPyplot "plot" "val_loss";
    CallPyplot "plot" (format "{}_loss" [ARCHITECTURE]);
    CallPyplot "plot" (format "val_{}_loss" [ARCHITECTURE]);
    CallPyplot "plot" (format "{}_loss" [DECODER_NAME]);
    CallPyplot "plot" (format "val_{}_loss" [DECODER_NAME]);
    CallPyplot "title" "Training and Validation Loss";
    CallPyplot "xlabel" "epoch";
    CallPyplot "ylabel" "loss";
    CallPyplot "legend" EmptyString;
    CallSavefig (path_join log_dir "plot_loss.png");
    CallPyplot "show" EmptyString;
    CallPyplot "figure" EmptyString;
    CallPyplot "plot" (format "{}_acc" [ARCHITECTURE]);
    CallPyplot "plot" (format "val_{}_acc" [ARCHITECTURE]);
    CallPyplot "title" "Training and Validation Accuracy";
    CallPyplot "xlabel" "epoch";
    CallPyplot "ylabel" "accuracy";
    CallPyplot "legend" EmptyString;
    CallSavefig (path_join log_dir "plot_accuracy.png");
    CallPyplot "show" EmptyString ].

(** The callbacks [callbacks] returns, given the task id of the Telegram
    callback. *)
Definition telegram_callback (task_id : string) : callback :=
  Telegram AUTH_TOKEN TELCHAT_ID (format "val_{}_acc" [ARCHITECTURE]) OUTPUT_DIR
    task_id.

Definition callback_list (task_id : string) : list callback :=
  [ CSVLogger log_file true;
    EarlyStopping (format "val_{}_loss" [ARCHITECTURE]) 0 10 1;
    LearningRateScheduler lr_schedule 0;
    ModelCheckpoint cpt_best (format "val_{}_acc" [ARCHITECTURE]) true true 1;
    ModelCheckpoint cpt_last (format "val_{}_acc" [ARCHITECTURE]) false true 0;
    TensorBoard tbd_dir BATCH_SIZE true true;
    telegram_callback task_id ].

(** The calls of a run of [train] that gets past the validation of the
    paths and returns, in order. *)
Definition script_calls (train valid : matrix)
    (model_train model_evaln : model) (json_train json_evaln task_id : string)
    (train_set valid_set : dataset) : list call :=
  [ CallLoadmat DATA_TRAIN; CallLoadmat DATA_VALID;
    CallShuffle train; CallShuffle valid;
    CallBuildModel;
    CallSummary model_train; CallSummary model_evaln;
    CallToJson model_train; CallToJson model_evaln;
    CallOpenWrite mdl_train_file json_train;
    CallOpenWrite mdl_evaln_file json_evaln;
    CallTelegram AUTH_TOKEN TELCHAT_ID (format "val_{}_acc" [ARCHITECTURE])
      OUTPUT_DIR;
    CallSendMessage (telegram_callback task_id) (acknowledgement task_id);
    CallFit model_train train_set valid_set BATCH_SIZE NUM_EPOCHS
      (callback_list task_id) ]
  ++ plot_calls.

(** ** Further notions

    Used by the properties that go beyond the claims. *)

From Stdlib Require Import Lqa.



(** A row of labels is one-hot for a matrix row: it has one entry per
    class, a one at the index of the row's label and zeros elsewhere. *)
Definition one_hot_for (num_classes : nat) (row : list Z) (r : list float32) : Prop :=
  List.length r = num_classes
  /\ (Z.to_nat (hd 0%Z row) < num_classes)%nat
  /\ forall j, (j < num_classes)%nat ->
       nth j r 0 = if (j =? Z.to_nat (hd 0%Z row))%nat then 1 else 0.

(** The pixels of a matrix are bytes. *)
Definition byte_pixels (data : matrix) : Prop :=
  Forall (fun row => Forall (fun v => (0 <= v <= 255)%Z) (drop 1 row)) data.

Definition byte_pixels_b (data : matrix) : bool :=
  forallb (fun row => forallb (fun v => (0 <=? v)%Z && (v <=? 255)%Z) (drop 1 row))
    data.

(** Every entry of a batch of images lies in [[0, 1]]. *)
Definition unit_range (x : images) : Prop :=
  Forall (Forall (Forall (Forall (fun v => 0 <= v <= 1)))) x.

(** The tensors of one split, or the exception NumPy or Keras raises:
    the images first, then the labels, as [load_data] computes them. *)
Definition images_of (data : matrix) : result images :=
  match reshape_batch INPUT_DSHAPE (List.concat (columns_from_1 data)) with
  | Ok x => Ok (map scale_image x)
  | Raise e => Raise e
  end.

Definition labels_of (data : matrix) : result tensor2 :=
  match column_0 data with
  | Ok y => to_categorical y
  | Raise e => Raise e
  end.

Definition tensors_of (data_train data_valid : matrix) : result (dataset * dataset) :=
  match images_of data_train with
  | Raise e => Raise e
  | Ok x_train =>
      match images_of data_valid with
      | Raise e => Raise e
      | Ok x_valid =>
          match labels_of data_train with
          | Raise e => Raise e
          | Ok y_train =>
              match labels_of data_valid with
              | Raise e => Raise e
              | Ok y_valid => Ok ((x_train, y_train), (x_valid, y_valid))
              end
          end
      end
  end.

(** The number of pixel entries of a matrix. *)
Definition pixel_count (data : matrix) : nat :=
  List.length (List.concat (columns_from_1 data)).

(** Rows that have a label, which is not negative. *)
Definition labelled (data : matrix) : Prop :=
  data <> [] /\ Forall (fun row => row <> [] /\ (0 <= hd 0 row)%Z) data.

Definition labelled_b (data : matrix) : bool :=
  match data with
  | [] => false
  | _ => forallb (fun row => match row with
                             | [] => false
                             | v :: _ => (0 <=? v)%Z
                             end) data
  end.

(** * Properties *)

(** ** The margin loss *)

Section Sums.

Lemma Qsum_Forall2 (l1 l2 : list Q) :
  Forall2 Qeq l1 l2 -> Qsum l1 == Qsum l2.
Proof.
  induction 1 as [|a b l1 l2 Hab _ IH]; simpl.
  - reflexivity.
  - rewrite Hab, IH. reflexivity.
Qed.


(** Reading two lists through indices is zipping them. *)
Lemma map_nth_zip {A B C} (g : A -> B -> C) (dA : A) (dB : B) :
  forall (l1 : list A) (l2 : list B),
    List.length l1 = List.length l2 ->
    map (fun i => g (nth i l1 dA) (nth i l2 dB)) (seq 0 (List.length l1))
    = zip_with g l1 l2.
Proof.
  induction l1 as [|a l1 IH]; intros [|b l2] Hlen; simpl in *; try discriminate.
  - reflexivity.
  - f_equal. rewrite <- seq_shift, map_map. apply IH. congruence.
Qed.

End Sums.


Lemma loss_rows (y_true y_pred : tensor2) :
  t_add
    (t_mul y_true
       (backend_square (backend_maximum 0 (scalar_sub (9 # 10) y_pred))))
    (t_mul (scalar_mul (1 # 2) (scalar_sub 1 y_true))
       (backend_square (backend_maximum 0 (sub_scalar y_pred (1 # 10)))))
  = zip_with row_loss y_true y_pred.
Proof.
  unfold t_add, t_mul, t_zip, backend_square, backend_maximum, scalar_sub,
    sub_scalar, scalar_mul, t_map.
  revert y_pred. induction y_true as [|rt yt IH]; intros [|rp yp]; simpl;
    try reflexivity.
  f_equal. apply IH.
Qed.

Lemma row_loss_terms (rt rp : list Q) :
  Forall2 Qeq (row_loss rt rp) (zip_with margin_term rt rp).
Proof.
  unfold row_loss. revert rp.
  induction rt as [|t rt IH]; intros [|p rp]; simpl; try constructor.
  - unfold margin_term. simpl. ring.
  - apply IH.
Qed.


Lemma spec_sum_rows (y_true y_pred : tensor2) :
  same_shape y_true y_pred ->
  map (fun i =>
         sum_upto (List.length (nth i y_true []))
           (fun j => margin_term (entry y_true i j) (entry y_pred i j)))
      (seq 0 (List.length y_true))
  = zip_with (fun rt rp => Qsum (zip_with margin_term rt rp)) y_true y_pred.
Proof.
  intros Hshape. unfold entry, sum_upto.
  transitivity
    (zip_with
       (fun rt rp =>
          Qsum (map (fun j => margin_term (nth j rt 0) (nth j rp 0))
                  (seq 0 (List.length rt)))) y_true y_pred).
  { apply (map_nth_zip
             (fun rt rp =>
                Qsum (map (fun j => margin_term (nth j rt 0) (nth j rp 0))
                        (seq 0 (List.length rt)))) [] []).
    eapply Forall2_length; exact Hshape. }
  induction Hshape as [|rt rp yt yp Hlen _ IH]; simpl.
  - reflexivity.
  - f_equal; [| exact IH]. f_equal. now apply map_nth_zip.
Qed.

(** C3.  For a label tensor and a prediction tensor of the same shape,
    [margin_loss] is the mean over the samples of the sum over the classes
    of [y_true * max(0, 0.9 - y_pred)^2
        + 0.5 * (1 - y_true) * max(0, y_pred - 0.1)^2]
    (in exact arithmetic). *)
Theorem margin_loss_is_mean_of_class_sums (y_true y_pred : tensor2) :
  same_shape y_true y_pred ->
  margin_loss y_true y_pred == margin_loss_spec y_true y_pred.
Proof.
  intros Hshape. unfold margin_loss, margin_loss_spec, backend_mean.
  cbv zeta. unfold sum_upto at 1.
  rewrite loss_rows, spec_sum_rows by exact Hshape.
  assert (Hlen : List.length (backend_sum_axis1 (zip_with row_loss y_true y_pred))
                 = List.length y_true).
  { unfold backend_sum_axis1. rewrite length_map, length_zip_with.
    apply Forall2_length in Hshape. lia. }
  rewrite Hlen.
  apply Qmult_comp; [| reflexivity].
  apply Qsum_Forall2. unfold backend_sum_axis1.
  clear Hlen. induction Hshape as [|rt rp yt yp _ _ IH]; simpl; constructor.
  - apply Qsum_Forall2, row_loss_terms.
  - exact IH.
Qed.

Lemma margin_loss_is_mean_of_class_sums_witness :
  margin_loss [[1; 0; 0]; [0; 1; 0]] [[9 # 10; 1 # 10; 0]; [1 # 2; 1 # 2; 1 # 2]]
  == margin_loss_spec [[1; 0; 0]; [0; 1; 0]]
       [[9 # 10; 1 # 10; 0]; [1 # 2; 1 # 2; 1 # 2]].
Proof.
  apply (margin_loss_is_mean_of_class_sums
           [[1; 0; 0]; [0; 1; 0]]
           [[9 # 10; 1 # 10; 0]; [1 # 2; 1 # 2; 1 # 2]]).
  repeat constructor.
Defined.



(** ** The learning-rate schedule *)







(** ** The file system *)

Lemma fnmatch_star (s : string) : fnmatch "*" s = true.
Proof.
  induction s as [|c s IH]; [reflexivity |].
  simpl in *. exact IH.
Qed.

(** ['*.*'] matches exactly the names that contain a dot. *)
Lemma fnmatch_star_dot_star (name : string) :
  fnmatch "*.*" name = contains_char dot name.
Proof.
  induction name as [|c name IH]; [reflexivity |].
  change (fnmatch "*.*" (String c name))
    with (fnmatch ".*" (String c name) || fnmatch "*.*" name).
  rewrite IH.
  change (fnmatch ".*" (String c name))
    with ((Ascii.eqb dot "?"%char || Ascii.eqb dot c) && fnmatch "*" name).
  rewrite fnmatch_star. simpl. now rewrite andb_true_r.
Qed.

Lemma selected_names (names : list string) :
  (0 <? List.length
          (filter (fun n => fnmatch "*.*" n = true)
             (filter (fun n => negb (ishidden n) = true) names)))%nat
  = existsb star_dot_star names.
Proof.
  induction names as [|n names IH]; [reflexivity |].
  cbn [existsb]. unfold star_dot_star at 1.
  rewrite <- fnmatch_star_dot_star.
  rewrite filter_cons. destruct (decide (negb (ishidden n) = true)) as [Hv|Hv].
  - rewrite Hv, filter_cons. cbn [andb].
    destruct (decide (fnmatch "*.*" n = true)) as [Hm|Hm].
    + rewrite Hm. reflexivity.
    + apply not_true_is_false in Hm. rewrite Hm. exact IH.
  - apply not_true_is_false in Hv. rewrite Hv. exact IH.
Qed.

Lemma glob_is_dirty (fs : filesystem) (directory : string) :
  glob_ready directory = true ->
  (0 <? List.length (glob fs (path_join directory "*.*")))%nat = dirty fs directory.
Proof.
  unfold glob_ready. cbv zeta.
  destruct (path_split (path_join directory "*.*")) as [dirname basename] eqn:Hsplit.
  cbn [fst snd]. intros Hready. apply andb_prop in Hready as [Hbase Hcomp].
  apply String.eqb_eq in Hbase. apply bool_decide_eq_true_1 in Hcomp. subst basename.
  unfold glob, dirty. rewrite Hsplit.
  change (has_magic "*.*") with true. change (ishidden "*.*") with false.
  cbv iota. rewrite length_map, Hcomp. apply selected_names.
Qed.

Lemma entry_name_Some (d p : list string) (n : string) :
  entry_name d p = Some n <-> p = (d ++ [n])%list.
Proof.
  unfold entry_name, parent. split.
  - destruct p as [|c p]; [discriminate |].
    case_bool_decide as Hd; [| discriminate].
    intros Hn.
    assert (Hlast : List.last (c :: p) EmptyString = n) by congruence.
    rewrite <- Hd, <- Hlast. now apply app_removelast_last.
  - intros ->.
    assert (Hcase : forall q : list string,
               q <> [] ->
               match q with
               | [] => None
               | _ => if bool_decide (removelast q = d)
                      then Some (List.last q EmptyString) else None
               end
               = if bool_decide (removelast q = d)
                 then Some (List.last q EmptyString) else None).
    { now intros [|? ?]. }
    rewrite Hcase by now destruct d.
    rewrite removelast_last, last_last.
    now rewrite bool_decide_eq_true_2.
Qed.

Lemma elem_of_listdir (fs : filesystem) (d : list string) (n : string) :
  n ∈ listdir fs d <-> isdir_b fs d = true /\ is_Some (fs !! (d ++ [n])%list).
Proof.
  unfold listdir. destruct (isdir_b fs d).
  - rewrite list_elem_of_omap. split.
    + intros ([p k] & Hin & Hname). apply elem_of_map_to_list in Hin.
      apply entry_name_Some in Hname. simpl in Hname. subst p. eauto.
    + intros [_ [k Hk]]. exists ((d ++ [n])%list, k). split.
      * now apply elem_of_map_to_list.
      * now apply entry_name_Some.
  - split; [intros H; inversion H | intros [H _]; discriminate].
Qed.

Lemma dirty_true (fs : filesystem) (directory : string) :
  dirty fs directory = true <->
  exists n, n ∈ listdir fs (components directory) /\ star_dot_star n = true.
Proof.
  unfold dirty. rewrite existsb_exists. split.
  - intros (n & Hin & Hn). exists n. split; [| exact Hn].
    now apply list_elem_of_In.
  - intros (n & Hin & Hn). exists n. split; [| exact Hn].
    now apply list_elem_of_In.
Qed.

(** *** [os.makedirs] *)

Lemma fs_lookup_nonempty (fs : filesystem) (p : list string) :
  p <> [] -> fs_lookup fs p = fs !! p.
Proof. now destruct p. Qed.

Lemma mkdir_fresh (fs : filesystem) (p : list string) :
  p <> [] -> fs !! p = None -> fs_lookup fs (parent p) = Some Dir ->
  mkdir p fs = (Ok tt, <[p := Dir]> fs).
Proof.
  intros Hne Hp Hparent. unfold mkdir.
  now rewrite (fs_lookup_nonempty _ _ Hne), Hp, Hparent.
Qed.

Lemma makedirs_rev_creates (rname : list string) :
  forall fs : filesystem,
    rname <> [] ->
    fs !! rev rname = None ->
    (forall q, q <> [] -> q `prefix_of` rev rname -> fs !! q <> Some File) ->
    exists fs',
      makedirs_rev rname fs = (Ok tt, fs')
      /\ fs' !! rev rname = Some Dir
      /\ grown_along fs fs' (rev rname).
Proof.
  induction rname as [|tail rhead IH]; intros fs Hne Hfree Hclear; [done |].
  assert (Hname : rev (tail :: rhead) = (rev rhead ++ [tail])%list) by reflexivity.
  assert (Hpne : rev (tail :: rhead) <> []).
  { rewrite Hname. now destruct (rev rhead). }
  assert (Hparent : parent (rev (tail :: rhead)) = rev rhead).
  { unfold parent. rewrite Hname. apply removelast_last. }
  assert (Hfinish : forall fs1 : filesystem,
             fs1 !! rev (tail :: rhead) = None ->
             fs_lookup fs1 (rev rhead) = Some Dir ->
             grown_along fs fs1 (rev rhead) \/ fs1 = fs ->
             exists fs',
               mkdir (rev (tail :: rhead)) fs1 = (Ok tt, fs')
               /\ fs' !! rev (tail :: rhead) = Some Dir
               /\ grown_along fs fs' (rev (tail :: rhead))).
  { intros fs1 Hfree1 Hhead Hgrow.
    exists (<[rev (tail :: rhead) := Dir]> fs1). split; [| split].
    - apply mkdir_fresh; [exact Hpne | exact Hfree1 | now rewrite Hparent].
    - apply lookup_insert_eq.
    - assert (Hpre : rev rhead `prefix_of` rev (tail :: rhead)).
      { rewrite Hname. now apply prefix_app_r. }
      split.
      + transitivity fs1.
        * destruct Hgrow as [[Hsub _] | ->]; [exact Hsub | reflexivity].
        * now apply insert_subseteq.
      + intros q k Hq. rewrite lookup_insert in Hq.
        case_decide as Heq.
        * injection Hq as <-. subst q. right. now repeat split.
        * destruct Hgrow as [[_ Hnew] | ->]; [| now left].
          destruct (Hnew q k Hq) as [Hold | (-> & Hqne & Hqpre)]; [now left |].
          right. repeat split; [exact Hqne |]. now transitivity (rev rhead). }
  cbn [makedirs_rev].
  destruct (decide (rev rhead = [])) as [Hroot | Hinner].
  - rewrite (bool_decide_eq_true_2 _ Hroot). cbn [negb andb].
    apply Hfinish; [exact Hfree | now rewrite Hroot | now right].
  - rewrite (bool_decide_eq_false_2 _ Hinner). cbn [negb andb].
    unfold exists_b. rewrite (fs_lookup_nonempty _ _ Hinner).
    destruct (fs !! rev rhead) as [k|] eqn:Hhead; cbn [negb].
    + apply Hfinish; [exact Hfree | | now right].
      rewrite (fs_lookup_nonempty _ _ Hinner), Hhead.
      destruct k; [| reflexivity].
      exfalso. apply (Hclear (rev rhead)); [exact Hinner | | exact Hhead].
      rewrite Hname. now apply prefix_app_r.
    + destruct (IH fs) as (fs1 & Hrun & Hdir & Hgrow).
      * intros ->. now apply Hinner.
      * exact Hhead.
      * intros q Hq Hpre. apply Hclear; [exact Hq |].
        transitivity (rev rhead); [exact Hpre |].
        rewrite Hname. now apply prefix_app_r.
      * rewrite Hrun. apply Hfinish; [| | now left].
        -- destruct (fs1 !! rev (tail :: rhead)) as [k|] eqn:Hk; [| reflexivity].
           destruct Hgrow as [_ Hnew].
           destruct (Hnew _ _ Hk) as [Hold | (_ & _ & Hpre)]; [congruence |].
           apply prefix_length in Hpre. rewrite Hname, length_app in Hpre.
           simpl in Hpre. lia.
        -- now rewrite (fs_lookup_nonempty _ _ Hinner).
Qed.

Lemma makedirs_creates (fs : filesystem) (p : list string) :
  p <> [] ->
  fs !! p = None ->
  (forall q, q <> [] -> q `prefix_of` p -> fs !! q <> Some File) ->
  exists fs',
    makedirs p fs = (Ok tt, fs')
    /\ fs' !! p = Some Dir
    /\ grown_along fs fs' p.
Proof.
  intros Hne Hfree Hclear. unfold makedirs.
  destruct (makedirs_rev_creates (rev p) fs) as (fs' & Hrun & Hdir & Hgrow).
  - intros Hrev. apply Hne. now rewrite <- (rev_involutive p), Hrev.
  - now rewrite rev_involutive.
  - now rewrite rev_involutive.
  - rewrite rev_involutive in Hdir, Hgrow. now exists fs'.
Qed.

(** ** [validate_paths] *)

Lemma unobstructed_clear (fs : filesystem) (p q : list string) :
  unobstructed fs p = true -> q <> [] -> q `prefix_of` p -> fs !! q <> Some File.
Proof.
  unfold unobstructed. rewrite forallb_forall. intros Hall Hq [k ->] Hfile.
  destruct q as [|c q]; [done |].
  specialize (Hall (List.length q)).
  rewrite take_app_length' in Hall by reflexivity.
  unfold isfile_b in Hall. cbn [fs_lookup] in Hall. rewrite Hfile in Hall.
  discriminate Hall. apply in_seq. rewrite length_app. simpl. lia.
Qed.

Lemma fs_grown_start (fs : filesystem) : fs_grown fs fs [].
Proof. split; [reflexivity | intros q k Hq; now left]. Qed.

Lemma fs_grown_more (fs0 fs : filesystem) (done : list (list string)) (p : list string) :
  fs_grown fs0 fs done -> fs_grown fs0 fs (done ++ [p]).
Proof.
  intros [Hsub Hnew]. split; [exact Hsub |].
  intros q k Hq. destruct (Hnew q k Hq) as [Hold | (-> & Hne & p' & Hin & Hpre)];
    [now left | right].
  repeat split; [exact Hne |]. exists p'. split; [| exact Hpre].
  apply elem_of_app. now left.
Qed.

Lemma fs_grown_step (fs0 fs fs' : filesystem) (done : list (list string))
    (p : list string) :
  fs_grown fs0 fs done -> grown_along fs fs' p -> fs_grown fs0 fs' (done ++ [p]).
Proof.
  intros [Hsub Hnew] [Hsub' Hnew']. split; [now transitivity fs |].
  intros q k Hq. destruct (Hnew' q k Hq) as [Hold | (-> & Hne & Hpre)].
  - destruct (Hnew q k Hold) as [Hold0 | (-> & Hne & p' & Hin & Hpre)];
      [now left | right].
    repeat split; [exact Hne |]. exists p'. split; [| exact Hpre].
    apply elem_of_app. now left.
  - right. repeat split; [exact Hne |]. exists p. split; [| exact Hpre].
    apply elem_of_app. right. now apply list_elem_of_singleton.
Qed.

Lemma fs_grown_lookup (fs0 fs : filesystem) (done : list (list string))
    (c : list string) :
  fs_grown fs0 fs done ->
  (forall p, p ∈ done -> ~ c `prefix_of` p) ->
  fs !! c = fs0 !! c.
Proof.
  intros [Hsub Hnew] Hfar.
  destruct (fs !! c) as [k|] eqn:Hc.
  - destruct (Hnew c k Hc) as [Hold | (_ & _ & p & Hin & Hpre)]; [done |].
    now destruct (Hfar p Hin).
  - destruct (fs0 !! c) as [k|] eqn:Hc0; [| reflexivity].
    rewrite map_subseteq_spec in Hsub. apply Hsub in Hc0. congruence.
Qed.

Lemma fs_grown_isdir (fs0 fs : filesystem) (done : list (list string))
    (c : list string) :
  fs_grown fs0 fs done ->
  (forall p, p ∈ done -> ~ c `prefix_of` p) ->
  isdir_b fs c = isdir_b fs0 c.
Proof.
  intros Hgrown Hfar. unfold isdir_b. destruct c as [|a c]; [reflexivity |].
  cbn [fs_lookup]. now rewrite (fs_grown_lookup fs0 fs done).
Qed.

Lemma fs_grown_dirty (fs0 fs : filesystem) (done : list (list string))
    (d : string) :
  fs_grown fs0 fs done ->
  (forall p, p ∈ done -> ~ components d `prefix_of` p) ->
  plain_paths done = true ->
  dirty fs d = dirty fs0 d.
Proof.
  intros Hgrown Hfar Hplain. apply Bool.eq_iff_eq_true.
  rewrite !dirty_true. setoid_rewrite elem_of_listdir.
  rewrite (fs_grown_isdir fs0 fs done) by assumption.
  destruct Hgrown as [Hsub Hnew]. rewrite map_subseteq_spec in Hsub.
  split; intros (n & (Hdir & [k Hk]) & Hn); exists n; (split; [split |]);
    try assumption.
  - destruct (Hnew _ _ Hk) as [Hold | (_ & _ & p & Hin & [rest ->])]; [eauto |].
    exfalso. unfold plain_paths in Hplain. rewrite forallb_forall in Hplain.
    apply list_elem_of_In in Hin. specialize (Hplain _ Hin).
    rewrite forallb_forall in Hplain. specialize (Hplain n).
    rewrite Hn in Hplain. discriminate Hplain.
    apply in_or_app. left. apply in_or_app. right. now left.
  - eauto.
Qed.

Lemma data_reports_cons (fs : filesystem) (file : string) (files : list string) :
  data_reports fs (file :: files)
  = ((if isfile_b fs (components file) then []
      else [format "[INFO] Data not found at {}" [file] +:+ newline])
     ++ data_reports fs files)%list.
Proof.
  unfold data_reports. rewrite filter_cons.
  destruct (isfile_b fs (components file)); now case_decide.
Qed.

Lemma directory_reports_cons (fs : filesystem) (d : string) (ds : list string) :
  directory_reports fs (d :: ds)
  = ((if isdir_b fs (components d) && dirty fs d
      then [format "[INFO] Output directory {} must be empty" [d] +:+ newline]
      else [])
     ++ directory_reports fs ds)%list.
Proof.
  unfold directory_reports. rewrite filter_cons.
  destruct (isdir_b fs (components d) && dirty fs d); now case_decide.
Qed.

Lemma directory_reports_app (fs : filesystem) (ds1 ds2 : list string) :
  directory_reports fs (ds1 ++ ds2)
  = (directory_reports fs ds1 ++ directory_reports fs ds2)%list.
Proof. unfold directory_reports. now rewrite filter_app, map_app. Qed.

Lemma check_files_spec (fs : filesystem) (files : list string) :
  forall (flag : bool) (out : list string) (tr : list call),
    for_each files check_file flag (World fs out tr)
    = (Ok (flag && forallb (fun file => isfile_b fs (components file)) files),
       World fs (out ++ data_reports fs files) tr).
Proof.
  induction files as [|file files IH]; intros flag out tr.
  - cbn [for_each forallb]. unfold ret, data_reports.
    now rewrite andb_true_r, filter_nil, app_nil_r.
  - cbn [for_each forallb]. rewrite data_reports_cons.
    unfold bind at 1. unfold check_file, bind, os_path_isfile, on_fs, print,
      print_end, ret. cbn [w_fs w_out w_trace].
    destruct (isfile_b fs (components file)); cbn [negb].
    + rewrite IH. now rewrite app_nil_l.
    + rewrite IH. rewrite andb_false_r. cbn [andb]. now rewrite <- app_assoc.
Qed.

Lemma check_directory_unfold (d : string) (flag : bool) (fs : filesystem)
    (out : list string) (tr : list call) :
  check_directory d flag (World fs out tr)
  = if isdir_b fs (components d) then
      if (0 <? List.length (glob fs (path_join d "*.*")))%nat
      then (Ok false,
            World fs
              (out ++ [format "[INFO] Output directory {} must be empty" [d]
                       +:+ newline])
              tr)
      else (Ok flag, World fs out tr)
    else
      match makedirs (components d) fs with
      | (Ok _, fs') => (Ok flag, World fs' out tr)
      | (Raise e, fs') => (Raise e, World fs' out tr)
      end.
Proof.
  unfold check_directory, bind, os_path_isdir, os_makedirs, glob_glob, on_fs,
    print, print_end, ret.
  cbv beta iota zeta delta [w_fs w_out w_trace].
  destruct (isdir_b fs (components d)); cbn [negb].
  - now destruct (0 <? List.length (glob fs (path_join d "*.*")))%nat.
  - now destruct (makedirs (components d) fs) as [[[]|e] fs'].
Qed.

Lemma check_directory_spec (fs0 fs : filesystem) (done : list (list string))
    (d : string) (flag : bool) (out : list string) (tr : list call) :
  fs_grown fs0 fs done ->
  glob_ready d = true ->
  unobstructed fs0 (components d) = true ->
  (forall p, p ∈ done -> ~ components d `prefix_of` p) ->
  plain_paths done = true ->
  exists fs',
    check_directory d flag (World fs out tr)
    = (Ok (flag && negb (isdir_b fs0 (components d) && dirty fs0 d)),
       World fs' (out ++ directory_reports fs0 [d]) tr)
    /\ fs ⊆ fs'
    /\ fs_grown fs0 fs' (done ++ [components d])
    /\ isdir_b fs' (components d) = true.
Proof.
  intros Hgrown Hready Hclear Hfar Hplain.
  rewrite directory_reports_cons. unfold directory_reports at 1.
  rewrite filter_nil. cbn [map]. rewrite app_nil_r.
  rewrite check_directory_unfold.
  rewrite (glob_is_dirty fs d Hready).
  rewrite (fs_grown_dirty fs0 fs done d Hgrown Hfar Hplain).
  pose proof (fs_grown_isdir fs0 fs done _ Hgrown Hfar) as Hsame.
  destruct (isdir_b fs0 (components d)) eqn:Hdir0; rewrite Hsame; cbn [negb andb].
  - exists fs. destruct (dirty fs0 d); cbn [negb].
    + rewrite andb_false_r.
      split; [reflexivity | split; [reflexivity | split; [| exact Hsame]]].
      now apply fs_grown_more.
    + rewrite andb_true_r, app_nil_r.
      split; [reflexivity | split; [reflexivity | split; [| exact Hsame]]].
      now apply fs_grown_more.
  - assert (Hne : components d <> []).
    { intros Hnil. rewrite Hnil in Hdir0. discriminate Hdir0. }
    assert (Hfree : fs !! components d = None).
    { rewrite (fs_grown_lookup fs0 fs done _ Hgrown Hfar).
      unfold isdir_b in Hdir0. rewrite (fs_lookup_nonempty _ _ Hne) in Hdir0.
      destruct (fs0 !! components d) as [[|]|] eqn:Hc; try done.
      now destruct (unobstructed_clear fs0 _ _ Hclear Hne (reflexivity _)). }
    destruct (makedirs_creates fs (components d) Hne Hfree)
      as (fs' & Hrun & Hmade & Hgrow).
    { intros q Hq Hpre Hfile. destruct Hgrown as [_ Hnew].
      destruct (Hnew q File Hfile) as [Hold | (Hk & _)]; [| discriminate Hk].
      now apply (unobstructed_clear fs0 _ _ Hclear Hq Hpre). }
    exists fs'. rewrite Hrun. rewrite andb_true_r, app_nil_r.
    split; [reflexivity | split; [apply Hgrow | split]].
    + now apply fs_grown_step with fs.
    + unfold isdir_b. now rewrite (fs_lookup_nonempty _ _ Hne), Hmade.
Qed.

Lemma isdir_b_mono (fs fs' : filesystem) (p : list string) :
  fs ⊆ fs' -> isdir_b fs p = true -> isdir_b fs' p = true.
Proof.
  intros Hsub. unfold isdir_b. destruct p as [|c p]; [done |].
  cbn [fs_lookup]. destruct (fs !! (c :: p)) as [[|]|] eqn:Hp; try done.
  rewrite map_subseteq_spec in Hsub. now rewrite (Hsub _ _ Hp).
Qed.

Lemma check_directories_spec (fs0 : filesystem) (ds : list string) :
  forall (done : list (list string)) (fs : filesystem) (flag : bool)
         (out : list string) (tr : list call),
    fs_grown fs0 fs done ->
    forallb glob_ready ds = true ->
    forallb (fun d => unobstructed fs0 (components d)) ds = true ->
    dirs_ordered done ds = true ->
    plain_paths (done ++ map components ds) = true ->
    exists fs',
      for_each ds check_directory flag (World fs out tr)
      = (Ok (flag && forallb (fun d => negb (isdir_b fs0 (components d) && dirty fs0 d)) ds),
         World fs' (out ++ directory_reports fs0 ds) tr)
      /\ fs ⊆ fs'
      /\ fs_grown fs0 fs' (done ++ map components ds)
      /\ Forall (fun d => isdir_b fs' (components d) = true) ds.
Proof.
  induction ds as [|d ds IH]; intros done fs flag out tr Hgrown Hready Hclear Hord Hplain.
  - exists fs. cbn [for_each forallb map]. unfold ret, directory_reports.
    rewrite andb_true_r, filter_nil, !app_nil_r.
    split; [reflexivity | split; [reflexivity | split; [exact Hgrown | constructor]]].
  - cbn [forallb dirs_ordered] in Hclear, Hord.
    apply andb_prop in Hclear as [Hclear_d Hclear].
    apply andb_prop in Hord as [Hfar Hord].
    cbn [forallb] in Hready. apply andb_prop in Hready as [Hready_d Hready'].
    assert (Hfar' : forall p, p ∈ done -> ~ components d `prefix_of` p).
    { intros p Hin Hpre. rewrite forallb_forall in Hfar.
      apply list_elem_of_In in Hin. specialize (Hfar p Hin).
      now rewrite (bool_decide_eq_true_2 _ Hpre) in Hfar. }
    assert (Hplain_done : plain_paths done = true).
    { unfold plain_paths in *. rewrite forallb_app in Hplain.
      now apply andb_prop in Hplain as [? _]. }
    destruct (check_directory_spec fs0 fs done d flag out tr
                Hgrown Hready_d Hclear_d Hfar' Hplain_done)
      as (fs1 & Hrun1 & Hsub1 & Hgrown1 & Hdir1).
    destruct (IH (done ++ [components d])%list fs1
                (flag && negb (isdir_b fs0 (components d) && dirty fs0 d))
                (out ++ directory_reports fs0 [d])%list tr)
      as (fs' & Hrun & Hsub & Hgrown' & Hdirs); try assumption.
    { cbn [map] in Hplain. now rewrite <- app_assoc. }
    exists fs'. cbn [for_each forallb map]. unfold bind at 1. rewrite Hrun1, Hrun.
    split; [| split; [| split]].
    + rewrite andb_assoc, <- app_assoc.
      now rewrite <- (directory_reports_app fs0 [d] ds).
    + now transitivity fs1.
    + now rewrite <- app_assoc in Hgrown'.
    + constructor; [| exact Hdirs]. now apply isdir_b_mono with fs1.
Qed.

(** What [validate_paths] returns, prints and leaves on the disk, when no
    regular file is in the way of an output directory. *)
Lemma validate_paths_spec (w : world) :
  creatable (w_fs w) = true ->
  exists fs',
    validate_paths w
    = (Ok (data_present (w_fs w) && outputs_clean (w_fs w)),
       World fs'
         (w_out w ++ data_reports (w_fs w) data_files
          ++ directory_reports (w_fs w) output_dirs)
         (w_trace w))
    /\ w_fs w ⊆ fs'
    /\ fs_grown (w_fs w) fs' (map components output_dirs)
    /\ Forall (fun d => isdir_b fs' (components d) = true) output_dirs.
Proof.
  intros Hclear. destruct w as [fs out tr]. cbn [w_fs w_out w_trace] in *.
  unfold validate_paths. unfold bind at 1. rewrite check_files_spec.
  destruct (check_directories_spec fs output_dirs [] fs
              (true && forallb (fun file => isfile_b fs (components file)) data_files)
              (out ++ data_reports fs data_files)%list tr)
    as (fs' & Hrun & Hsub & Hgrown & Hdirs).
  - apply fs_grown_start.
  - vm_compute. reflexivity.
  - exact Hclear.
  - vm_compute. reflexivity.
  - vm_compute. reflexivity.
  - exists fs'. unfold bind, ret. rewrite Hrun. rewrite <- app_assoc.
    cbn [andb] in *. now repeat (split; [assumption || reflexivity |]).
Qed.

(** ** Reshaping *)

Section Chunks.

Context {A : Type}.
Implicit Types (l a b : list A) (ls : list (list A)).

Lemma chunk_fuel_enough (n : nat) :
  (0 < n)%nat ->
  forall fuel fuel' l,
    (List.length l <= fuel)%nat -> (List.length l <= fuel')%nat ->
    chunk_fuel fuel n l = chunk_fuel fuel' n l.
Proof.
  intros Hn. induction fuel as [|fuel IH]; intros fuel' l Hf Hf'.
  - destruct l; [| simpl in Hf; lia]. now destruct fuel'.
  - destruct l as [|x l]; [now destruct fuel' |].
    destruct fuel' as [|fuel']; [simpl in Hf'; lia |].
    cbn [chunk_fuel]. f_equal.
    apply IH; rewrite length_drop; simpl in *; lia.
Qed.

Lemma chunk_nil (n : nat) : chunk n (@nil A) = [].
Proof. reflexivity. Qed.

Lemma chunk_app_one (n : nat) a l :
  (0 < n)%nat -> List.length a = n -> chunk n (a ++ l) = a :: chunk n l.
Proof.
  intros Hn Ha. unfold chunk. rewrite length_app.
  destruct a as [|x a]; [simpl in Ha; lia |].
  cbn [List.length Nat.add chunk_fuel app].
  change (x :: (a ++ l)%list) with ((x :: a) ++ l)%list.
  rewrite take_app_length', drop_app_length' by (symmetry; exact Ha).
  f_equal. apply chunk_fuel_enough; [exact Hn | lia | lia].
Qed.

Lemma chunk_app_multiple (n k : nat) :
  (0 < n)%nat ->
  forall a b, List.length a = (k * n)%nat ->
    chunk n (a ++ b) = (chunk n a ++ chunk n b)%list.
Proof.
  intros Hn. induction k as [|k IH]; intros a b Ha.
  - destruct a; [reflexivity | discriminate Ha].
  - rewrite <- (take_drop n a), <- app_assoc.
    assert (Htake : List.length (take n a) = n) by (rewrite length_take; lia).
    rewrite (chunk_app_one n (take n a) (drop n a ++ b)) by assumption.
    rewrite (chunk_app_one n (take n a) (drop n a)) by assumption.
    rewrite IH by (rewrite length_drop; lia). reflexivity.
Qed.

Lemma length_chunk (n k : nat) :
  (0 < n)%nat ->
  forall l, List.length l = (k * n)%nat -> List.length (chunk n l) = k.
Proof.
  intros Hn. induction k as [|k IH]; intros l Hl.
  - destruct l; [reflexivity | discriminate Hl].
  - rewrite <- (take_drop n l).
    rewrite chunk_app_one by (try rewrite length_take; lia).
    cbn [List.length]. f_equal. apply IH. rewrite length_drop. lia.
Qed.

Lemma Forall_chunk (n k : nat) :
  (0 < n)%nat ->
  forall l, List.length l = (k * n)%nat ->
    Forall (fun g => List.length g = n) (chunk n l).
Proof.
  intros Hn. induction k as [|k IH]; intros l Hl.
  - destruct l; [constructor | discriminate Hl].
  - rewrite <- (take_drop n l).
    assert (Htake : List.length (take n l) = n) by (rewrite length_take; lia).
    rewrite chunk_app_one by assumption.
    constructor; [exact Htake |]. apply IH. rewrite length_drop. lia.
Qed.

Lemma chunk_concat_exact (n : nat) ls :
  (0 < n)%nat ->
  Forall (fun r => List.length r = n) ls ->
  chunk n (List.concat ls) = ls.
Proof.
  intros Hn. induction 1 as [|r ls Hr _ IH]; [reflexivity |].
  cbn [List.concat]. rewrite chunk_app_one by assumption. now rewrite IH.
Qed.

Lemma chunk_concat_multiple (n k : nat) ls :
  (0 < n)%nat ->
  Forall (fun r => List.length r = (k * n)%nat) ls ->
  chunk n (List.concat ls) = List.concat (map (chunk n) ls).
Proof.
  intros Hn. induction 1 as [|r ls Hr _ IH]; [reflexivity |].
  cbn [List.concat map]. rewrite (chunk_app_multiple n k) by assumption.
  now rewrite IH.
Qed.

Lemma length_concat_uniform (n : nat) ls :
  Forall (fun r => List.length r = n) ls ->
  List.length (List.concat ls) = (List.length ls * n)%nat.
Proof.
  induction 1 as [|r ls Hr _ IH]; [reflexivity |].
  cbn [List.concat List.length]. rewrite length_app, IH, Hr. lia.
Qed.

End Chunks.

(** Reshaping a stack of rows of [h * w * c] elements to
    [(-1, h, w, c)] reshapes each row to [(h, w, c)]. *)
Lemma reshape_batch_rows {A} (h w c : nat) (ls : list (list A)) :
  (0 < h * w * c)%nat ->
  Forall (fun r => List.length r = (h * w * c)%nat) ls ->
  reshape_batch (h, w, c) (List.concat ls)
  = Ok (map (fun r => chunk w (chunk c r)) ls).
Proof.
  intros Hpos Hrows.
  assert (Hh : (0 < h)%nat) by nia.
  assert (Hw : (0 < w)%nat) by nia.
  assert (Hc : (0 < c)%nat) by nia.
  unfold reshape_batch.
  destruct (Nat.eqb_spec (h * w * c) 0) as [H0|_]; [lia |].
  rewrite (length_concat_uniform (h * w * c)) by exact Hrows.
  rewrite Nat.Div0.mod_mul. cbn [Nat.eqb]. f_equal.
  rewrite (chunk_concat_multiple c (h * w)) by assumption.
  rewrite (chunk_concat_multiple w h).
  - rewrite map_map. apply chunk_concat_exact; [exact Hh |].
    apply Forall_map. eapply Forall_impl; [exact Hrows |].
    intros r Hr. cbn beta. apply (length_chunk w h); [exact Hw |].
    now apply (length_chunk c (h * w)).
  - exact Hw.
  - apply Forall_map. eapply Forall_impl; [exact Hrows |].
    intros r Hr. cbn beta. now apply (length_chunk c (h * w)).
Qed.

Lemma reshaped_row_shape {A} (h w c : nat) (l : list A) :
  (0 < h * w * c)%nat ->
  List.length l = (h * w * c)%nat ->
  has_shape (h, w, c) (chunk w (chunk c l)).
Proof.
  intros Hpos Hl.
  assert (Hw : (0 < w)%nat) by nia.
  assert (Hc : (0 < c)%nat) by nia.
  assert (Hpx : List.length (chunk c l) = (h * w)%nat)
    by now apply (length_chunk c (h * w)).
  split.
  - now apply (length_chunk w h).
  - assert (Hall : Forall (fun px => List.length px = c) (chunk c l))
      by now apply (Forall_chunk c (h * w)).
    revert Hall Hpx. generalize (chunk c l). clear l Hl Hpos.
    intros pxs Hall. revert pxs Hall.
    induction h as [|h IH]; intros pxs Hall Hpx.
    + destruct pxs; [constructor | discriminate Hpx].
    + rewrite <- (take_drop w pxs).
      assert (Htake : List.length (take w pxs) = w)
        by (rewrite length_take; nia).
      rewrite chunk_app_one by assumption.
      constructor.
      * split; [exact Htake |]. now apply Forall_take.
      * apply IH; [now apply Forall_drop |].
        rewrite length_drop. lia.
Qed.

(** ** [load_data] *)

Lemma fold_max_spec (rest : list Z) :
  forall v : Z,
    (v <= fold_left Z.max rest v)%Z
    /\ Forall (fun y => (y <= fold_left Z.max rest v)%Z) rest
    /\ (fold_left Z.max rest v = v \/ fold_left Z.max rest v ∈ rest).
Proof.
  induction rest as [|y rest IH]; intros v; cbn [fold_left].
  - repeat split; [lia | constructor | now left].
  - destruct (IH (Z.max v y)) as (Hge & Hall & Hin).
    split; [lia |]. split.
    + constructor; [lia | exact Hall].
    + destruct Hin as [Heq | Hin].
      * destruct (Z.max_spec v y) as [[_ Hm] | [_ Hm]]; rewrite Hm in Heq |- *.
        -- right. rewrite Heq. now left.
        -- now left.
      * right. now right.
Qed.

Lemma max_label_spec (l : list Z) (m : Z) :
  max_label l = Some m ->
  Forall (fun y => (y <= m)%Z) l /\ m ∈ l.
Proof.
  destruct l as [|v rest]; [discriminate |]. cbn [max_label]. intros [= <-].
  destruct (fold_max_spec rest v) as (Hge & Hall & Hin). split.
  - now constructor.
  - destruct Hin as [-> | Hin]; [now left | now right].
Qed.

Lemma max_label_perm (l l' : list Z) :
  l ≡ₚ l' -> max_label l = max_label l'.
Proof.
  intros Hperm.
  destruct (max_label l) as [m|] eqn:Hm, (max_label l') as [m'|] eqn:Hm'.
  - apply max_label_spec in Hm as [Hall Hin], Hm' as [Hall' Hin'].
    rewrite Forall_forall in Hall, Hall'.
    rewrite Hperm in Hin. rewrite <- Hperm in Hin'.
    f_equal. apply Z.le_antisymm; [now apply Hall' | now apply Hall].
  - destruct l'; [| discriminate Hm'].
    apply Permutation_nil_r in Hperm. now subst l.
  - destruct l; [| discriminate Hm].
    apply Permutation_nil_l in Hperm. now subst l'.
  - reflexivity.
Qed.

Lemma column_0_rows (data : matrix) :
  Forall (fun row => row <> []) data ->
  column_0 data = Ok (map (hd 0%Z) data).
Proof.
  induction 1 as [|row data Hrow _ IH]; [reflexivity |].
  destruct row as [|v row]; [done |]. cbn [column_0 map hd]. now rewrite IH.
Qed.

Lemma mapM_result_ok {A B} (f : A -> result B) (g : A -> B) (l : list A) :
  Forall (fun a => f a = Ok (g a)) l -> mapM_result f l = Ok (map g l).
Proof.
  induction 1 as [|a l Ha _ IH]; [reflexivity |].
  cbn [mapM_result map]. now rewrite Ha, IH.
Qed.

Lemma to_categorical_labels (y : list Z) (m : Z) :
  max_label y = Some m ->
  Forall (fun v => (0 <= v)%Z) y ->
  to_categorical y
  = Ok (map (fun v => one_hot (Z.to_nat (m + 1)) (Z.to_nat v)) y).
Proof.
  intros Hm Hpos. unfold to_categorical. rewrite Hm.
  apply max_label_spec in Hm as [Hle Hin].
  assert (Hm0 : (0 <= m)%Z).
  { rewrite Forall_forall in Hpos. now apply Hpos. }
  destruct (Z.ltb_spec (m + 1) 0) as [Hneg|_]; [lia |].
  apply mapM_result_ok.
  rewrite Forall_forall in Hle, Hpos. apply Forall_forall. intros v Hv.
  unfold class_index.
  destruct (Z.leb_spec 0 v) as [_|Hbad]; [| specialize (Hpos v Hv); lia].
  destruct (Z.ltb_spec v (m + 1)) as [_|Hbad]; [| specialize (Hle v Hv); lia].
  reflexivity.
Qed.

Section Loader.

Context (fw : framework).

Lemma load_images_ok (data : matrix) (w : world) :
  Forall (fun row => List.length row = S pixels_per_image) data ->
  load_images fw data w = (Ok (map image_of_row data), w).
Proof.
  intros Hrows. unfold load_images.
  change (shape_eqb IMAGE_SIZE INPUT_DSHAPE) with true. cbv iota.
  unfold bind, lift, ret, columns_from_1.
  change INPUT_DSHAPE with (104, 104, 3)%nat.
  rewrite reshape_batch_rows.
  - f_equal. rewrite !map_map. reflexivity.
  - lia.
  - apply Forall_map. eapply Forall_impl; [exact Hrows |].
    intros row Hrow. cbn beta. rewrite length_drop, Hrow.
    unfold pixels_per_image, INPUT_DSHAPE. lia.
Qed.

Lemma load_labels_ok (data : matrix) (w : world) :
  data <> [] ->
  Forall (fun row => row <> [] /\ (0 <= hd 0 row)%Z) data ->
  load_labels data w = (Ok (map (label_of_row (classes data)) data), w).
Proof.
  intros Hne Hrows. unfold load_labels, bind, lift.
  rewrite column_0_rows by (eapply Forall_impl; [exact Hrows | now intros ? [? _]]).
  unfold classes.
  destruct (max_label (map (hd 0%Z) data)) as [m|] eqn:Hm.
  - rewrite (to_categorical_labels _ m Hm).
    + now rewrite map_map.
    + apply Forall_map. eapply Forall_impl; [exact Hrows | now intros ? [_ ?]].
  - destruct data; [done | discriminate Hm].
Qed.

Lemma images_shape (data : matrix) :
  Forall (fun row => List.length row = S pixels_per_image) data ->
  Forall (has_shape INPUT_DSHAPE) (map image_of_row data).
Proof.
  intros Hrows. apply Forall_map. eapply Forall_impl; [exact Hrows |].
  intros row Hrow. cbn beta. unfold image_of_row.
  change INPUT_DSHAPE with (104, 104, 3)%nat. cbv iota beta.
  assert (Hshape : has_shape (104, 104, 3)%nat (chunk 104 (chunk 3 (drop 1 row)))).
  { apply reshaped_row_shape; [lia |]. rewrite length_drop, Hrow.
    unfold pixels_per_image, INPUT_DSHAPE. lia. }
  destruct Hshape as [Hh Hrest]. split.
  - now rewrite length_map.
  - apply Forall_map. eapply Forall_impl; [exact Hrest |].
    intros r [Hw Hpx]. cbn beta. split; [now rewrite length_map |].
    apply Forall_map. eapply Forall_impl; [exact Hpx |].
    intros px Hc. cbn beta. now rewrite length_map.
Qed.

End Loader.

Section LoadData.

Context (fw : framework).

Lemma well_formed_rows (data : matrix) :
  well_formed data ->
  Forall (fun row => List.length row = S pixels_per_image) data
  /\ Forall (fun row => row <> [] /\ (0 <= hd 0 row)%Z) data.
Proof.
  intros [_ Hrows]. split; (eapply Forall_impl; [exact Hrows |]).
  - now intros row [? _].
  - intros row [Hlen Hpos]. split; [| exact Hpos]. now destruct row.
Qed.

Lemma load_data_ok (w : world) (train valid : matrix) :
  fw_loadmat fw (w_trace w) DATA_TRAIN = Ok train ->
  fw_loadmat fw (w_trace w ++ [CallLoadmat DATA_TRAIN]) DATA_VALID = Ok valid ->
  well_formed (shuffled_train fw (w_trace w) train) ->
  well_formed (shuffled_valid fw (w_trace w) train valid) ->
  load_data fw w
  = (Ok (split_rows (shuffled_train fw (w_trace w) train),
         split_rows (shuffled_valid fw (w_trace w) train valid)),
     World (w_fs w) (w_out w)
       (w_trace w ++ [CallLoadmat DATA_TRAIN; CallLoadmat DATA_VALID;
                      CallShuffle train; CallShuffle valid])).
Proof.
  intros Htrain Hvalid Hwf_t Hwf_v.
  destruct (well_formed_rows _ Hwf_t) as [Hlen_t Hlab_t].
  destruct (well_formed_rows _ Hwf_v) as [Hlen_v Hlab_v].
  unfold load_data, loadmat_data, numpy_random_shuffle.
  unfold bind at 1. unfold extern at 1. rewrite Htrain.
  unfold bind at 1. unfold extern at 1. cbn [w_trace w_fs w_out]. rewrite Hvalid.
  unfold bind at 1. unfold extern at 1. cbn [w_trace w_fs w_out].
  unfold bind at 1. unfold extern at 1. cbn [w_trace w_fs w_out].
  fold (shuffled_train fw (w_trace w) train).
  fold (shuffled_valid fw (w_trace w) train valid).
  unfold bind at 1. rewrite (load_images_ok fw _ _ Hlen_t).
  unfold bind at 1. rewrite (load_images_ok fw _ _ Hlen_v).
  unfold bind at 1. rewrite (load_labels_ok _ _ (proj1 Hwf_t) Hlab_t).
  unfold bind at 1. rewrite (load_labels_ok _ _ (proj1 Hwf_v) Hlab_v).
  unfold ret, split_rows. rewrite <- !app_assoc. reflexivity.
Qed.

End LoadData.

Lemma well_formed_check (data : matrix) :
  well_formed_b data = true -> well_formed data.
Proof.
  unfold well_formed_b, well_formed. intros Hb. split.
  - intros ->. discriminate Hb.
  - destruct data as [|row data]; [discriminate Hb |].
    rewrite forallb_forall in Hb. apply Forall_forall. intros r Hr.
    apply list_elem_of_In in Hr. specialize (Hb r Hr).
    apply andb_prop in Hb as [Hlen Hpos]. split.
    + now apply Nat.eqb_eq.
    + now apply Z.leb_le.
Qed.

(** C2.  For dataset matrices (after the shuffle), [load_data] returns,
    for each split, [x] equal to columns [1..] of every row reshaped to
    [(104, 104, 3)] as [float32] divided by [255.0], and [y] equal to the
    one-hot encoding of column [0]. *)
Theorem load_data_splits_rows (fw : framework) (w : world) (train valid : matrix) :
  fw_loadmat fw (w_trace w) DATA_TRAIN = Ok train ->
  fw_loadmat fw (w_trace w ++ [CallLoadmat DATA_TRAIN]) DATA_VALID = Ok valid ->
  well_formed (shuffled_train fw (w_trace w) train) ->
  well_formed (shuffled_valid fw (w_trace w) train valid) ->
  exists x_train y_train x_valid y_valid w',
    load_data fw w = (Ok ((x_train, y_train), (x_valid, y_valid)), w')
    /\ x_train = map image_of_row (shuffled_train fw (w_trace w) train)
    /\ y_train = map (label_of_row (classes (shuffled_train fw (w_trace w) train)))
                   (shuffled_train fw (w_trace w) train)
    /\ x_valid = map image_of_row (shuffled_valid fw (w_trace w) train valid)
    /\ y_valid = map (label_of_row
                        (classes (shuffled_valid fw (w_trace w) train valid)))
                   (shuffled_valid fw (w_trace w) train valid)
    /\ Forall (has_shape (104, 104, 3)%nat) x_train
    /\ Forall (has_shape (104, 104, 3)%nat) x_valid.
Proof.
  intros Htrain Hvalid Hwf_t Hwf_v.
  eexists _, _, _, _, _. split.
  - rewrite (load_data_ok fw w train valid) by assumption.
    unfold split_rows. reflexivity.
  - repeat (split; [reflexivity |]).
    split; apply (images_shape); now apply well_formed_rows.
Qed.

Lemma load_data_splits_rows_witness :
  exists x_train y_train x_valid y_valid w',
    load_data (quiet_framework sample_data) (fresh_world data_only)
    = (Ok ((x_train, y_train), (x_valid, y_valid)), w')
    /\ x_train = map image_of_row
                   (shuffled_train (quiet_framework sample_data) [] sample_data)
    /\ y_train = map (label_of_row
                        (classes (shuffled_train (quiet_framework sample_data) []
                                    sample_data)))
                   (shuffled_train (quiet_framework sample_data) [] sample_data)
    /\ x_valid = map image_of_row
                   (shuffled_valid (quiet_framework sample_data) [] sample_data
                      sample_data)
    /\ y_valid = map (label_of_row
                        (classes (shuffled_valid (quiet_framework sample_data) []
                                    sample_data sample_data)))
                   (shuffled_valid (quiet_framework sample_data) [] sample_data
                      sample_data)
    /\ Forall (has_shape (104, 104, 3)%nat) x_train
    /\ Forall (has_shape (104, 104, 3)%nat) x_valid.
Proof.
  apply (load_data_splits_rows (quiet_framework sample_data)
           (fresh_world data_only) sample_data sample_data).
  - reflexivity.
  - reflexivity.
  - apply well_formed_check. vm_compute. reflexivity.
  - apply well_formed_check. vm_compute. reflexivity.
Defined.

Lemma well_formed_perm (data data' : matrix) :
  data' ≡ₚ data -> well_formed data -> well_formed data'.
Proof.
  intros Hperm [Hne Hrows]. split.
  - intros ->. apply Permutation_nil_l in Hperm. now apply Hne.
  - now rewrite Hperm.
Qed.

Lemma classes_perm (data data' : matrix) :
  data' ≡ₚ data -> classes data' = classes data.
Proof.
  intros Hperm. unfold classes.
  now rewrite (max_label_perm (map (hd 0%Z) data') (map (hd 0%Z) data))
    by now apply Permutation_map.
Qed.

Lemma split_rows_paired (data data' : matrix) :
  data' ≡ₚ data ->
  paired data (split_rows data').1 (split_rows data').2.
Proof.
  intros Hperm. unfold split_rows. cbn [fst snd].
  rewrite (classes_perm data data' Hperm).
  split; [| split; [| split]].
  - rewrite length_map. now apply Permutation_length.
  - rewrite length_map. now apply Permutation_length.
  - intros i xi yi Hx Hy.
    change (map image_of_row data') with (image_of_row <$> data') in Hx.
    change (map (label_of_row (classes data)) data')
      with (label_of_row (classes data) <$> data') in Hy.
    rewrite list_lookup_fmap in Hx. rewrite list_lookup_fmap in Hy.
    destruct (data' !! i) as [row|] eqn:Hrow; [| discriminate Hx].
    cbn in Hx, Hy. injection Hx as <-. injection Hy as <-.
    exists row. split; [| split; reflexivity].
    rewrite <- Hperm. now apply list_elem_of_lookup_2 with i.
  - transitivity
      (map (fun row => (image_of_row row, label_of_row (classes data) row)) data').
    + assert (Hzip : zip (map image_of_row data')
                       (map (label_of_row (classes data)) data')
                     = map (fun row => (image_of_row row,
                                        label_of_row (classes data) row)) data').
      { clear Hperm. induction data' as [|row data' IH]; [reflexivity |].
        cbn [map]. unfold zip in *. cbn [zip_with]. now rewrite IH. }
      now rewrite Hzip.
    + now apply Permutation_map.
Qed.

(** C9.  Shuffling permutes whole rows, so the pairing of label and image
    survives it: at every index the returned label is the one-hot encoding
    of the label of the very row of the loaded matrix whose pixels make the
    returned image, in both splits. *)
Theorem load_data_keeps_pairs (fw : framework) (w : world) (train valid : matrix) :
  (forall t data, fw_shuffle fw t data ≡ₚ data) ->
  fw_loadmat fw (w_trace w) DATA_TRAIN = Ok train ->
  fw_loadmat fw (w_trace w ++ [CallLoadmat DATA_TRAIN]) DATA_VALID = Ok valid ->
  well_formed train ->
  well_formed valid ->
  exists x_train y_train x_valid y_valid w',
    load_data fw w = (Ok ((x_train, y_train), (x_valid, y_valid)), w')
    /\ paired train x_train y_train
    /\ paired valid x_valid y_valid.
Proof.
  intros Hshuffle Htrain Hvalid Hwf_t Hwf_v.
  eexists _, _, _, _, _. split; [| split].
  - rewrite (load_data_ok fw w train valid); try assumption.
    + unfold split_rows. reflexivity.
    + apply well_formed_perm with train; [apply Hshuffle | exact Hwf_t].
    + apply well_formed_perm with valid; [apply Hshuffle | exact Hwf_v].
  - apply (split_rows_paired train). apply Hshuffle.
  - apply (split_rows_paired valid). apply Hshuffle.
Qed.

Lemma load_data_keeps_pairs_witness :
  exists x_train y_train x_valid y_valid w',
    load_data (quiet_framework sample_data) (fresh_world data_only)
    = (Ok ((x_train, y_train), (x_valid, y_valid)), w')
    /\ paired sample_data x_train y_train
    /\ paired sample_data x_valid y_valid.
Proof.
  apply (load_data_keeps_pairs (quiet_framework sample_data)
           (fresh_world data_only) sample_data sample_data).
  - intros t data. symmetry. apply Permutation_rev.
  - reflexivity.
  - reflexivity.
  - apply well_formed_check. vm_compute. reflexivity.
  - apply well_formed_check. vm_compute. reflexivity.
Defined.

(** ** Calls and exceptions *)

Section Silent.

Lemma silent_ret {A} (a : A) : silent (ret a).
Proof. now intros w. Qed.

Lemma silent_lift {A} (r : result A) : silent (lift r).
Proof. now intros w. Qed.

Lemma silent_print_end (s : string) : silent (print_end s).
Proof. now intros w. Qed.

Lemma silent_print (s : string) : silent (print s).
Proof. now intros w. Qed.

Lemma silent_on_fs {A} (f : filesystem -> result A * filesystem) : silent (on_fs f).
Proof. intros w. unfold on_fs. now destruct (f (w_fs w)). Qed.

Lemma silent_bind {A B} (m : M A) (k : A -> M B) :
  silent m -> (forall a, silent (k a)) -> silent (bind m k).
Proof.
  intros Hm Hk w. unfold bind. specialize (Hm w).
  destruct (m w) as [[a|e] w1]; cbn [snd] in *; [| exact Hm].
  now rewrite Hk.
Qed.

Lemma silent_for_each {A S} (items : list A) (body : A -> S -> M S) :
  (forall x s, silent (body x s)) -> forall s, silent (for_each items body s).
Proof.
  intros Hbody. induction items as [|x items IH]; intros s; cbn [for_each].
  - apply silent_ret.
  - apply silent_bind; [apply Hbody | exact IH].
Qed.

End Silent.

Lemma validate_paths_silent : silent validate_paths.
Proof.
  unfold validate_paths.
  apply silent_bind; [| intros flag; apply silent_bind; [| intros ?; apply silent_ret]].
  - apply silent_for_each. intros file flag. unfold check_file.
    apply silent_bind; [apply silent_on_fs | intros found].
    destruct (negb found); [| apply silent_ret].
    apply silent_bind; [apply silent_print | intros ?; apply silent_ret].
  - apply silent_for_each. intros d flag'. unfold check_directory.
    apply silent_bind; [apply silent_on_fs | intros present].
    destruct (negb present).
    + apply silent_bind; [apply silent_on_fs | intros ?; apply silent_ret].
    + apply silent_bind; [apply silent_on_fs | intros found].
      destruct (0 <? List.length found)%nat; [| apply silent_ret].
      apply silent_bind; [apply silent_print | intros ?; apply silent_ret].
Qed.

Section Honest.

Context (fw : framework).

Lemma first_raise_app (t1 t2 : list call) :
  forall t0,
    first_raise fw t0 t1 = None ->
    first_raise fw t0 (t1 ++ t2) = first_raise fw (t0 ++ t1) t2.
Proof.
  induction t1 as [|c t1 IH]; intros t0 Hnone; cbn [first_raise app] in *.
  - now rewrite app_nil_r.
  - destruct (raised fw t0 c); [discriminate Hnone |].
    rewrite IH by exact Hnone. now rewrite <- app_assoc.
Qed.

Lemma faithful_ok {A} (t0 t : list call) (a : A) :
  faithful fw t0 t (Ok a) -> first_raise fw t0 t = None.
Proof.
  unfold faithful. destruct (first_raise fw t0 t) as [[e rest]|]; [| done].
  now intros [_ ?].
Qed.

Lemma silent_honest {A} (m : M A) : silent m -> honest fw m.
Proof.
  intros Hm w. exists []. split; [now rewrite Hm, app_nil_r | exact I].
Qed.

Lemma honest_bind {A B} (m : M A) (k : A -> M B) :
  honest fw m -> (forall a, honest fw (k a)) -> honest fw (bind m k).
Proof.
  intros Hm Hk w. unfold bind. destruct (Hm w) as (t1 & Htrace1 & Hfaith1).
  destruct (m w) as [[a|e] w1]; cbn [fst snd] in *.
  - destruct (Hk a w1) as (t2 & Htrace2 & Hfaith2).
    exists (t1 ++ t2)%list. split.
    + now rewrite Htrace2, Htrace1, app_assoc.
    + unfold faithful in *.
      rewrite first_raise_app by now apply faithful_ok with a.
      now rewrite <- Htrace1.
  - exists t1. split; [exact Htrace1 |].
    unfold faithful in *.
    destruct (first_raise fw (w_trace w) t1) as [[e' rest]|]; [| exact I].
    destruct Hfaith1 as [Hrest Heq]. split; [exact Hrest |]. congruence.
Qed.

Lemma honest_extern {A} (c : call) (answer : list call -> result A) :
  (forall t, raised fw t c
             = match answer t with Ok _ => None | Raise e => Some e end) ->
  honest fw (extern c answer).
Proof.
  intros Hanswer w. exists [c]. split; [reflexivity |].
  unfold faithful, extern. cbn [first_raise fst]. rewrite Hanswer.
  now destruct (answer (w_trace w)).
Qed.

Lemma honest_for_each {A S} (items : list A) (body : A -> S -> M S) :
  (forall x s, honest fw (body x s)) -> forall s, honest fw (for_each items body s).
Proof.
  intros Hbody. induction items as [|x items IH]; intros s; cbn [for_each].
  - apply silent_honest, silent_ret.
  - apply honest_bind; [apply Hbody | exact IH].
Qed.

End Honest.

(** ** [train] and the exceptions of the framework *)

Ltac honest_step :=
  lazymatch goal with
  | |- honest _ (bind _ _) => apply honest_bind; [| intros ?]
  | |- honest _ (ret _) => apply silent_honest, silent_ret
  | |- honest _ (lift _) => apply silent_honest, silent_lift
  | |- honest _ (print _) => apply silent_honest, silent_print
  | |- honest _ (print_end _) => apply silent_honest, silent_print_end
  | |- honest _ (on_fs _) => apply silent_honest, silent_on_fs
  | |- honest _ validate_paths => apply silent_honest, validate_paths_silent
  | |- honest _ (extern _ _) => apply honest_extern; intros ?; reflexivity
  | |- honest _ (for_each _ _ _) => apply honest_for_each; intros ? ?
  | |- honest _ (if ?b then _ else _) => destruct b
  | |- honest _ (match ?x with _ => _ end) => destruct x
  end.

Section TrainHonest.

Context (fw : framework).

Lemma load_data_honest : honest fw (load_data fw).
Proof.
  unfold load_data, loadmat_data, numpy_random_shuffle, load_images, load_labels,
    cv2_resize.
  repeat honest_step.
Qed.

Lemma callbacks_honest : honest fw (callbacks fw).
Proof. unfold callbacks, new_telegram. repeat honest_step. Qed.

Lemma plot_honest (h : history) : honest fw (plot fw h).
Proof. unfold plot, plot_series, pyplot, pyplot_savefig. repeat honest_step. Qed.

Lemma train_honest : honest fw (train fw).
Proof.
  unfold train.
  apply honest_bind; [honest_step | intros ok].
  destruct (negb ok); [honest_step |].
  apply honest_bind; [honest_step | intros _].
  apply honest_bind; [apply load_data_honest | intros [[x_train y_train] [x_valid y_valid]]].
  do 2 (apply honest_bind; [honest_step | intros _]).
  apply honest_bind; [unfold build_model; honest_step | intros [model_train model_evaln]].
  apply honest_bind; [honest_step | intros _].
  do 4 (apply honest_bind; [honest_step | intros ?]).
  do 2 (apply honest_bind; [unfold open_write; repeat honest_step | intros _]).
  apply honest_bind; [apply callbacks_honest | intros cb_list].
  apply honest_bind; [unfold last_task_id; repeat honest_step | intros tel].
  apply honest_bind; [unfold send_message; honest_step | intros _].
  apply honest_bind; [unfold model_fit; honest_step | intros train_history].
  apply honest_bind; [apply plot_honest | intros _].
  honest_step.
Qed.

Lemma first_raise_later (t1 t2 : list call) :
  forall t0 e rest,
    first_raise fw t0 t1 = Some (e, rest) ->
    first_raise fw t0 (t1 ++ t2) = Some (e, (rest ++ t2)%list).
Proof.
  induction t1 as [|c t1 IH]; intros t0 e rest Hsome; cbn [first_raise app] in *.
  - discriminate Hsome.
  - destruct (raised fw t0 c) as [e'|].
    + now injection Hsome as -> ->.
    + now apply IH.
Qed.

Lemma faithful_raise {A} (t0 t rest : list call) (c : call) (e : exn)
    (r : result A) :
  faithful fw t0 (t ++ c :: rest) r ->
  raised fw (t0 ++ t) c = Some e ->
  r = Raise e /\ rest = [].
Proof.
  unfold faithful. intros Hfaith Hraised.
  destruct (first_raise fw t0 t) as [[e' rest']|] eqn:Hfirst.
  - rewrite (first_raise_later _ _ _ _ _ Hfirst) in Hfaith.
    destruct Hfaith as [Hnil _]. now destruct rest'.
  - rewrite (first_raise_app fw _ _ _ Hfirst) in Hfaith.
    cbn [first_raise] in Hfaith. rewrite Hraised in Hfaith.
    now destruct Hfaith.
Qed.

End TrainHonest.

(** C6.  [train] handles no exception: when the framework answers a call
    of the run (loading a matrix, building the model, fitting, or any
    other) with an exception, that call is the last thing the run does and
    [train] raises the same exception to its caller. *)
Theorem train_propagates (fw : framework) (w : world) (t rest : list call)
    (c : call) (e : exn) :
  w_trace (train fw w).2 = (w_trace w ++ t ++ c :: rest)%list ->
  raised fw (w_trace w ++ t) c = Some e ->
  (train fw w).1 = Raise e /\ rest = [].
Proof.
  intros Htrace Hraised.
  destruct (train_honest fw w) as (t' & Htrace' & Hfaith).
  rewrite Htrace in Htrace'. apply app_inv_head in Htrace'. subst t'.
  now apply (faithful_raise fw (w_trace w) t rest c e).
Qed.

Lemma train_propagates_witness :
  (train failing_loadmat_framework (fresh_world data_only)).1
  = Raise (External "FileNotFoundError")
  /\ @nil call = [].
Proof.
  apply (train_propagates failing_loadmat_framework (fresh_world data_only)
           [] [] (CallLoadmat DATA_TRAIN) (External "FileNotFoundError")).
  - vm_compute. reflexivity.
  - vm_compute. reflexivity.
Defined.

(** The same for an exception raised by [fit], on a run with data. *)
Example train_fit_failure :
  (train (failing_fit_framework sample_data) (fresh_world data_only)).1
  = Raise (External "ResourceExhaustedError").
Proof. vm_compute. reflexivity. Qed.

(** ** What a run calls *)

Section Emits.

Context {P : call -> Prop}.







Lemma emits_loose {A} (Q : A -> Prop) (m : M A) :
  emits P Q m -> emits P (fun _ => True) m.
Proof.
  intros Hm w. destruct (Hm w) as (t & Htrace & Hall & _).
  exists t. now repeat split.
Qed.

End Emits.


Section ScriptWrites.

Context (fw : framework).






End ScriptWrites.


(** ** A run that returns *)

Lemma bind_ok_inv {A B} (m : M A) (k : A -> M B) (w w' : world) (b : B) :
  bind m k w = (Ok b, w') ->
  exists a w1, m w = (Ok a, w1) /\ k a w1 = (Ok b, w').
Proof.
  unfold bind. destruct (m w) as [[a|e] w1]; [| discriminate].
  intros Hk. now exists a, w1.
Qed.

Lemma extern_ok_inv {A} (c : call) (answer : list call -> result A)
    (w w' : world) (a : A) :
  extern c answer w = (Ok a, w') ->
  answer (w_trace w) = Ok a /\ w_trace w' = (w_trace w ++ [c])%list.
Proof. unfold extern. now intros [= -> <-]. Qed.

Lemma silent_inv {A} (m : M A) (w w' : world) (r : result A) :
  silent m -> m w = (r, w') -> w_trace w' = w_trace w.
Proof. intros Hm Hrun. specialize (Hm w). now rewrite Hrun in Hm. Qed.

Section Plays.

Lemma plays_ret {A} (a : A) : plays (ret a) [].
Proof. intros w. exists []. now rewrite app_nil_r. Qed.

Lemma plays_extern {A} (c : call) (answer : list call -> result A) :
  plays (extern c answer) [c].
Proof. intros w. exists [c]. now repeat split. Qed.

Lemma plays_raise {A} (e : exn) (s : list call) : plays (lift (A:=A) (Raise e)) s.
Proof.
  intros w. exists []. split; [now rewrite app_nil_r |].
  split; [apply prefix_nil | discriminate].
Qed.

Lemma plays_bind {A B} (m : M A) (k : A -> M B) (s1 s2 : list call) :
  plays m s1 -> (forall a, plays (k a) s2) -> plays (bind m k) (s1 ++ s2).
Proof.
  intros Hm Hk w. unfold bind. destruct (Hm w) as (t1 & Htrace1 & Hpre1 & Hall1).
  destruct (m w) as [[a|e] w1]; cbn [fst snd] in *.
  - destruct (Hk a w1) as (t2 & Htrace2 & Hpre2 & Hall2).
    rewrite (Hall1 a eq_refl) in Htrace1.
    exists (s1 ++ t2)%list. split; [| split].
    + now rewrite Htrace2, Htrace1, app_assoc.
    + now apply prefix_app.
    + intros b Hb. now rewrite (Hall2 b Hb).
  - exists t1. split; [exact Htrace1 |].
    split; [now apply prefix_app_r | discriminate].
Qed.

End Plays.

Section Success.

Context (fw : framework).

Lemma plot_plays (h : history) : plays (plot fw h) plot_calls.
Proof.
  unfold plot, plot_calls, pyplot, pyplot_savefig.
  repeat
    lazymatch goal with
    | |- plays (bind _ _) (?c :: ?rest) =>
        apply (plays_bind _ _ [c] rest);
        [ first [ apply plays_extern
                | unfold plot_series, pyplot;
                  match goal with
                  | |- context [h !! ?key] =>
                      destruct (h !! key);
                      [apply plays_extern | apply plays_raise]
                  end ]
        | intros _ ]
    end.
  apply plays_ret.
Qed.

Lemma load_data_calls (w w' : world) (d : dataset * dataset) :
  load_data fw w = (Ok d, w') ->
  exists train valid,
    w_trace w'
    = (w_trace w ++ [CallLoadmat DATA_TRAIN; CallLoadmat DATA_VALID;
                     CallShuffle train; CallShuffle valid])%list.
Proof.
  unfold load_data, loadmat_data, numpy_random_shuffle. intros Hrun.
  apply bind_ok_inv in Hrun as (train & w1 & H1 & Hrun).
  apply bind_ok_inv in Hrun as (valid & w2 & H2 & Hrun).
  apply bind_ok_inv in Hrun as (train' & w3 & H3 & Hrun).
  apply bind_ok_inv in Hrun as (valid' & w4 & H4 & Hrun).
  apply extern_ok_inv in H1 as [_ H1], H2 as [_ H2], H3 as [_ H3], H4 as [_ H4].
  exists train, valid.
  assert (Hrest : w_trace w' = w_trace w4).
  { revert Hrun. apply silent_inv.
    assert (Himg : forall data, silent (load_images fw data)).
    { intros data. unfold load_images.
      change (shape_eqb IMAGE_SIZE INPUT_DSHAPE) with true. cbv iota.
      apply silent_bind; [apply silent_lift | intros ?; apply silent_ret]. }
    assert (Hlab : forall data, silent (load_labels data)).
    { intros data. unfold load_labels.
      apply silent_bind; [apply silent_lift | intros ?; apply silent_lift]. }
    apply silent_bind; [apply Himg | intros ?].
    apply silent_bind; [apply Himg | intros ?].
    apply silent_bind; [apply Hlab | intros ?].
    apply silent_bind; [apply Hlab | intros ?]. apply silent_ret. }
  rewrite Hrest, H4, H3, H2, H1, <- !app_assoc. reflexivity.
Qed.

Lemma callbacks_calls (w w' : world) (cb_list : list callback) :
  callbacks fw w = (Ok cb_list, w') ->
  exists task_id,
    cb_list = callback_list task_id
    /\ w_trace w'
       = (w_trace w
          ++ [CallTelegram AUTH_TOKEN TELCHAT_ID
                (format "val_{}_acc" [ARCHITECTURE]) OUTPUT_DIR])%list.
Proof.
  unfold callbacks, new_telegram. intros Hrun.
  apply bind_ok_inv in Hrun as (cb & w1 & Hcb & Hrun).
  apply bind_ok_inv in Hcb as (task_id & w2 & Htel & Hcb).
  apply extern_ok_inv in Htel as [_ Htel].
  unfold ret in Hcb, Hrun. injection Hcb as <- <-. injection Hrun as <- <-.
  now exists task_id.
Qed.

Lemma open_write_calls (file content : string) (w w' : world) :
  open_write file content w = (Ok tt, w') ->
  w_trace w' = (w_trace w ++ [CallOpenWrite file content])%list.
Proof.
  unfold open_write. intros Hrun.
  apply bind_ok_inv in Hrun as ([] & w1 & Hfs & Hrun).
  apply extern_ok_inv in Hrun as [_ Hrun].
  apply (silent_inv _ _ _ _ (silent_on_fs _)) in Hfs. now rewrite Hrun, Hfs.
Qed.

End Success.

(** A run of [train] that gets past the validation of the paths and
    returns has made exactly the calls of the script, in order. *)
Lemma train_success_calls (fw : framework) (w w' : world) :
  (validate_paths w).1 = Ok true ->
  train fw w = (Ok tt, w') ->
  exists train valid model_train model_evaln json_train json_evaln task_id
         train_set valid_set,
    w_trace w'
    = (w_trace w
       ++ script_calls train valid model_train model_evaln json_train json_evaln
            task_id train_set valid_set)%list.
Proof.
  intros Hvalid Hrun. unfold train in Hrun.
  apply bind_ok_inv in Hrun as (ok & w0 & Hv & Hrun).
  rewrite Hv in Hvalid. cbn [fst] in Hvalid. injection Hvalid as ->.
  apply (silent_inv _ _ _ _ validate_paths_silent) in Hv.
  cbn [negb] in Hrun.
  apply bind_ok_inv in Hrun as ([] & w1 & Hp1 & Hrun).
  apply (silent_inv _ _ _ _ (silent_print_end _)) in Hp1.
  apply bind_ok_inv in Hrun as ([[x_train y_train] [x_valid y_valid]] & w2 & Hload & Hrun).
  apply load_data_calls in Hload as (train & valid & Hload).
  apply bind_ok_inv in Hrun as ([] & w3 & Hp3 & Hrun).
  apply (silent_inv _ _ _ _ (silent_print _)) in Hp3.
  apply bind_ok_inv in Hrun as ([] & w4 & Hp4 & Hrun).
  apply (silent_inv _ _ _ _ (silent_print_end _)) in Hp4.
  apply bind_ok_inv in Hrun as ([model_train model_evaln] & w5 & Hbuild & Hrun).
  apply extern_ok_inv in Hbuild as [_ Hbuild].
  apply bind_ok_inv in Hrun as ([] & w6 & Hp6 & Hrun).
  apply (silent_inv _ _ _ _ (silent_print _)) in Hp6.
  apply bind_ok_inv in Hrun as ([] & w7 & Hs7 & Hrun).
  apply extern_ok_inv in Hs7 as [_ Hs7].
  apply bind_ok_inv in Hrun as ([] & w8 & Hs8 & Hrun).
  apply extern_ok_inv in Hs8 as [_ Hs8].
  apply bind_ok_inv in Hrun as (json_train & w9 & Hj9 & Hrun).
  apply extern_ok_inv in Hj9 as [_ Hj9].
  apply bind_ok_inv in Hrun as (json_evaln & w10 & Hj10 & Hrun).
  apply extern_ok_inv in Hj10 as [_ Hj10].
  apply bind_ok_inv in Hrun as ([] & w11 & Ho11 & Hrun).
  apply open_write_calls in Ho11.
  apply bind_ok_inv in Hrun as ([] & w12 & Ho12 & Hrun).
  apply open_write_calls in Ho12.
  apply bind_ok_inv in Hrun as (cb_list & w13 & Hcb & Hrun).
  apply callbacks_calls in Hcb as (task_id & -> & Hcb).
  apply bind_ok_inv in Hrun as (tel & w14 & Htel & Hrun).
  change (last_task_id (callback_list task_id) w13)
    with (Ok (telegram_callback task_id, task_id), w13) in Htel.
  injection Htel as <- <-. cbn [fst snd] in Hrun.
  apply bind_ok_inv in Hrun as ([] & w15 & Hsend & Hrun).
  apply extern_ok_inv in Hsend as [_ Hsend].
  apply bind_ok_inv in Hrun as (train_history & w16 & Hfit & Hrun).
  apply extern_ok_inv in Hfit as [_ Hfit].
  apply bind_ok_inv in Hrun as ([] & w17 & Hplot & Hrun).
  unfold ret in Hrun. injection Hrun as <-.
  destruct (plot_plays fw train_history w16) as (tp & Htp & _ & Hall).
  rewrite Hplot in Htp, Hall. cbn [fst snd] in Htp, Hall.
  rewrite (Hall tt eq_refl) in Htp.
  exists train, valid, model_train, model_evaln, json_train, json_evaln, task_id,
    (x_train, y_train), (x_valid, y_valid).
  rewrite Htp, Hfit, Hsend, Hcb, Ho12, Ho11, Hj10, Hj9, Hs8, Hs7, Hp6, Hbuild,
    Hp4, Hp3, Hload, Hp1, Hv.
  unfold script_calls. rewrite <- !app_assoc. reflexivity.
Qed.

(** C7.  The Telegram callback is built from the constants [AUTH_TOKEN]
    and [TELCHAT_ID], and a run that gets past the validation of the paths
    and returns has sent, through that callback and just before the call of
    [fit], the acknowledgement addressed to [TELCHAT_ID]. *)
Theorem acknowledgement_before_fit (fw : framework) (w : world) :
  (validate_paths w).1 = Ok true ->
  (train fw w).1 = Ok tt ->
  exists before after task_id model_train train_set valid_set,
    w_trace (train fw w).2
    = (w_trace w ++ before
       ++ [ CallTelegram AUTH_TOKEN TELCHAT_ID
              (format "val_{}_acc" [ARCHITECTURE]) OUTPUT_DIR;
            CallSendMessage (telegram_callback task_id) (acknowledgement task_id);
            CallFit model_train train_set valid_set BATCH_SIZE NUM_EPOCHS
              (callback_list task_id) ]
       ++ after)%list
    /\ telegram_callback task_id
       = Telegram AUTH_TOKEN TELCHAT_ID (format "val_{}_acc" [ARCHITECTURE])
           OUTPUT_DIR task_id
    /\ last (callback_list task_id) = Some (telegram_callback task_id)
    /\ chat_id (acknowledgement task_id) = TELCHAT_ID
    /\ Forall (fun c => match c with
                        | CallFit _ _ _ _ _ _ => False
                        | _ => True
                        end) (before ++ after).
Proof.
  intros Hvalid Hok.
  destruct (train fw w) as [r w'] eqn:Hrun. cbn [fst snd] in *. subst r.
  destruct (train_success_calls fw w w' Hvalid Hrun)
    as (train & valid & mt & me & j1 & j2 & task_id & d1 & d2 & Htrace).
  exists [ CallLoadmat DATA_TRAIN; CallLoadmat DATA_VALID;
           CallShuffle train; CallShuffle valid; CallBuildModel;
           CallSummary mt; CallSummary me; CallToJson mt; CallToJson me;
           CallOpenWrite mdl_train_file j1; CallOpenWrite mdl_evaln_file j2 ],
    plot_calls, task_id, mt, d1, d2.
  split; [exact Htrace |].
  repeat (split; [reflexivity |]).
  unfold plot_calls. repeat constructor.
Qed.

Lemma acknowledgement_before_fit_witness :
  exists before after task_id model_train train_set valid_set,
    w_trace (train (quiet_framework sample_data) (fresh_world data_only)).2
    = (w_trace (fresh_world data_only) ++ before
       ++ [ CallTelegram AUTH_TOKEN TELCHAT_ID
              (format "val_{}_acc" [ARCHITECTURE]) OUTPUT_DIR;
            CallSendMessage (telegram_callback task_id) (acknowledgement task_id);
            CallFit model_train train_set valid_set BATCH_SIZE NUM_EPOCHS
              (callback_list task_id) ]
       ++ after)%list
    /\ telegram_callback task_id
       = Telegram AUTH_TOKEN TELCHAT_ID (format "val_{}_acc" [ARCHITECTURE])
           OUTPUT_DIR task_id
    /\ last (callback_list task_id) = Some (telegram_callback task_id)
    /\ chat_id (acknowledgement task_id) = TELCHAT_ID
    /\ Forall (fun c => match c with
                        | CallFit _ _ _ _ _ _ => False
                        | _ => True
                        end) (before ++ after).
Proof.
  apply (acknowledgement_before_fit (quiet_framework sample_data)
           (fresh_world data_only)).
  - vm_compute. reflexivity.
  - vm_compute. reflexivity.
Defined.

(** ** [train] and the validation of the paths *)

Section Refusal.

Context (fw : framework).

Lemma honest_grows {A} (m : M A) (w : world) :
  honest fw m -> exists t, w_trace (m w).2 = (w_trace w ++ t)%list.
Proof. intros Hm. destruct (Hm w) as (t & Htrace & _). now exists t. Qed.

Lemma bind_assoc_run {A B C} (m : M A) (k1 : A -> M B) (k2 : B -> M C) (w : world) :
  bind (bind m k1) k2 w = bind m (fun a => bind (k1 a) k2) w.
Proof. unfold bind. now destruct (m w) as [[a|e] w1]. Qed.

Lemma bind_extern_first {A B} (c : call) (answer : list call -> result A)
    (k : A -> M B) (w : world) :
  (forall a, honest fw (k a)) ->
  exists t, w_trace (bind (extern c answer) k w).2 = (w_trace w ++ c :: t)%list.
Proof.
  intros Hk. unfold bind, extern.
  destruct (answer (w_trace w)) as [a|e].
  - destruct (honest_grows (k a) (World (w_fs w) (w_out w) (w_trace w ++ [c])) (Hk a))
      as (t & Htrace).
    exists t. rewrite Htrace. cbn [w_trace]. now rewrite <- app_assoc.
  - now exists [].
Qed.

(** Past the validation, the first thing [train] does is to read the
    training matrix. *)
Lemma train_proceeds (w w1 : world) :
  validate_paths w = (Ok true, w1) ->
  exists t,
    w_trace (train fw w).2 = (w_trace w ++ CallLoadmat DATA_TRAIN :: t)%list.
Proof.
  intros Hv. unfold train. unfold bind at 1. rewrite Hv. cbn [negb].
  rewrite <- (silent_inv _ _ _ _ validate_paths_silent Hv).
  unfold bind at 1. unfold print_end at 1. unfold load_data.
  rewrite bind_assoc_run. unfold loadmat_data at 1.
  match goal with
  | |- context [bind (extern ?c ?ans) ?k ?w0] =>
      destruct (bind_extern_first c ans k w0) as (t & Htrace)
  end.
  - intros train.
    unfold loadmat_data, numpy_random_shuffle, load_images, load_labels,
      cv2_resize, build_model, open_write, callbacks, new_telegram,
      last_task_id, send_message, model_fit, plot, plot_series, pyplot,
      pyplot_savefig.
    repeat honest_step.
  - exists t. exact Htrace.
Qed.

Lemma train_refuses (w w1 : world) :
  validate_paths w = (Ok false, w1) -> train fw w = (Ok tt, w1).
Proof. intros Hv. unfold train, bind. now rewrite Hv. Qed.

Lemma data_reports_missing (fs : filesystem) (files : list string) :
  forallb (fun file => isfile_b fs (components file)) files = false ->
  data_reports fs files <> [].
Proof.
  induction files as [|file files IH]; cbn [forallb]; [discriminate |].
  rewrite data_reports_cons.
  destruct (isfile_b fs (components file)); [| discriminate].
  cbn [andb app]. exact IH.
Qed.

Lemma directory_reports_dirty (fs : filesystem) (dirs : list string) :
  forallb (fun d => negb (isdir_b fs (components d) && dirty fs d)) dirs = false ->
  directory_reports fs dirs <> [].
Proof.
  induction dirs as [|d dirs IH]; cbn [forallb]; [discriminate |].
  rewrite directory_reports_cons.
  destruct (isdir_b fs (components d) && dirty fs d); [discriminate |].
  cbn [negb andb app]. exact IH.
Qed.

End Refusal.

Lemma data_reports_none (fs : filesystem) (files : list string) :
  forallb (fun file => isfile_b fs (components file)) files = true ->
  data_reports fs files = [].
Proof.
  induction files as [|file files IH]; cbn [forallb]; [reflexivity |].
  intros Hall. apply andb_prop in Hall as [Hfile Hall].
  now rewrite data_reports_cons, Hfile, IH.
Qed.

Lemma directory_reports_none (fs : filesystem) (dirs : list string) :
  forallb (fun d => negb (isdir_b fs (components d) && dirty fs d)) dirs = true ->
  directory_reports fs dirs = [].
Proof.
  induction dirs as [|d dirs IH]; cbn [forallb]; [reflexivity |].
  intros Hall. apply andb_prop in Hall as [Hd Hall].
  apply negb_true_iff in Hd. now rewrite directory_reports_cons, Hd, IH.
Qed.

Lemma dotless_clean (fs : filesystem) :
  dotless_outputs fs = true -> outputs_clean fs = true.
Proof.
  unfold dotless_outputs, outputs_clean. rewrite !forallb_forall.
  intros Hdotless d Hd. specialize (Hdotless d Hd).
  destruct (isdir_b fs (components d)); [| reflexivity].
  cbn [negb orb andb] in *. apply negb_true_iff.
  unfold dirty. apply not_true_is_false. intros Hdirty.
  apply existsb_exists in Hdirty as (n & Hn & Hstar).
  rewrite forallb_forall in Hdotless. specialize (Hdotless n Hn).
  unfold star_dot_star in Hstar. apply andb_prop in Hstar as [_ Hdot].
  now rewrite Hdot in Hdotless.
Qed.

(** C1 (as the code has it).  When no regular file is in the way of an
    output directory: [validate_paths] returns true exactly when both data
    files exist and no output directory that exists holds an entry selected
    by ['*.*']; otherwise it has printed one line per failed check and
    [train] returns at once, without a call and without an exception.  So a
    run makes a call only when the data files exist and the output
    directories are clean in that sense. *)
Theorem train_refuses_unless_paths_ok (fw : framework) (w : world) :
  creatable (w_fs w) = true ->
  exists w1,
    validate_paths w
    = (Ok (data_present (w_fs w) && outputs_clean (w_fs w)), w1)
    /\ w_trace w1 = w_trace w
    /\ w_out w1
       = (w_out w ++ data_reports (w_fs w) data_files
          ++ directory_reports (w_fs w) output_dirs)%list
    /\ (data_present (w_fs w) && outputs_clean (w_fs w) = false ->
        train fw w = (Ok tt, w1)
        /\ (data_reports (w_fs w) data_files
            ++ directory_reports (w_fs w) output_dirs)%list <> [])
    /\ (w_trace (train fw w).2 <> w_trace w ->
        data_present (w_fs w) = true /\ outputs_clean (w_fs w) = true).
Proof.
  intros Hclear.
  destruct (validate_paths_spec w Hclear) as (fs' & Hv & _).
  eexists. split; [exact Hv |]. cbn [w_trace w_out].
  split; [reflexivity |]. split; [reflexivity |].
  assert (Hrefuse :
            data_present (w_fs w) && outputs_clean (w_fs w) = false ->
            train fw w
            = (Ok tt,
               World fs'
                 (w_out w ++ data_reports (w_fs w) data_files
                  ++ directory_reports (w_fs w) output_dirs)
                 (w_trace w))).
  { intros Hbad. apply train_refuses. now rewrite <- Hbad. }
  split.
  - intros Hbad. split; [now apply Hrefuse |].
    apply andb_false_iff in Hbad as [Hdata | Hdirs].
    + intros Hnil. apply app_eq_nil in Hnil as [Hnil _].
      now apply (data_reports_missing (w_fs w) data_files).
    + intros Hnil. apply app_eq_nil in Hnil as [_ Hnil].
      now apply (directory_reports_dirty (w_fs w) output_dirs).
  - intros Hcalls.
    destruct (data_present (w_fs w) && outputs_clean (w_fs w)) eqn:Hok.
    + now apply andb_prop in Hok.
    + exfalso. apply Hcalls. now rewrite (Hrefuse eq_refl).
Qed.

Lemma train_refuses_unless_paths_ok_witness :
  exists w1,
    validate_paths (fresh_world ∅)
    = (Ok (data_present ∅ && outputs_clean ∅), w1)
    /\ w_trace w1 = []
    /\ w_out w1
       = ([] ++ data_reports ∅ data_files ++ directory_reports ∅ output_dirs)%list
    /\ (data_present ∅ && outputs_clean ∅ = false ->
        train (quiet_framework sample_data) (fresh_world ∅) = (Ok tt, w1)
        /\ (data_reports ∅ data_files ++ directory_reports ∅ output_dirs)%list
           <> [])
    /\ (w_trace (train (quiet_framework sample_data) (fresh_world ∅)).2 <> [] ->
        data_present ∅ = true /\ outputs_clean ∅ = true).
Proof.
  apply (train_refuses_unless_paths_ok (quiet_framework sample_data)
           (fresh_world ∅)).
  vm_compute. reflexivity.
Defined.

(** The claim as it is worded fails twice.  An output directory that
    holds only names without a dot is not empty, yet the validation passes
    and the training runs; and with a data file missing and a regular file
    in the way of the output tree, [train] raises instead of returning. *)
Lemma nonempty_output_directory_accepted :
  fs_wf stale_output = true
  /\ isdir_b stale_output (components OUTPUT_DIR) = true
  /\ List.length (listdir stale_output (components OUTPUT_DIR)) = 2%nat
  /\ (validate_paths (fresh_world stale_output)).1 = Ok true
  /\ (train (quiet_framework sample_data) (fresh_world stale_output)).1 = Ok tt
  /\ List.length
       (w_trace (train (quiet_framework sample_data) (fresh_world stale_output)).2)
     = 36%nat
  /\ fs_wf blocked_output = true
  /\ isfile_b blocked_output (components DATA_TRAIN) = false
  /\ (train (quiet_framework sample_data) (fresh_world blocked_output)).1
     = Raise (NotADirectoryError ["output"; "synthetic_digits"]).
Proof. vm_compute. repeat split; reflexivity. Qed.

(** C8 (as the code has it).  When no regular file is in the way of an
    output directory, the validation judges the output directories by the
    pattern ['*.*'] alone and leaves all five in place, creating the
    missing ones; if moreover the data files exist and no entry of an
    existing output directory has a dot in its name, it prints nothing,
    returns true, and [train] goes on to load the data. *)
Theorem validate_paths_judges_by_glob (fw : framework) (w : world) :
  creatable (w_fs w) = true ->
  exists w1,
    validate_paths w
    = (Ok (data_present (w_fs w) && outputs_clean (w_fs w)), w1)
    /\ w_fs w ⊆ w_fs w1
    /\ Forall (fun d => isdir_b (w_fs w1) (components d) = true) output_dirs
    /\ (data_present (w_fs w) = true ->
        dotless_outputs (w_fs w) = true ->
        validate_paths w = (Ok true, w1)
        /\ w_out w1 = w_out w
        /\ exists t,
             w_trace (train fw w).2
             = (w_trace w ++ CallLoadmat DATA_TRAIN :: t)%list).
Proof.
  intros Hclear.
  destruct (validate_paths_spec w Hclear) as (fs' & Hv & Hsub & _ & Hdirs).
  eexists. split; [exact Hv |]. cbn [w_fs w_out].
  split; [exact Hsub |]. split; [exact Hdirs |].
  intros Hdata Hdotless.
  pose proof (dotless_clean _ Hdotless) as Hclean.
  rewrite Hdata, Hclean in Hv. cbn [andb] in Hv.
  rewrite (data_reports_none _ _ Hdata) in Hv |- *.
  rewrite (directory_reports_none _ _ Hclean) in Hv |- *.
  rewrite !app_nil_r in Hv |- *.
  split; [exact Hv |]. split; [reflexivity |].
  now apply (train_proceeds fw w _ Hv).
Qed.

Lemma validate_paths_judges_by_glob_witness :
  exists w1,
    validate_paths (fresh_world stale_output)
    = (Ok (data_present stale_output && outputs_clean stale_output), w1)
    /\ stale_output ⊆ w_fs w1
    /\ Forall (fun d => isdir_b (w_fs w1) (components d) = true) output_dirs
    /\ (data_present stale_output = true ->
        dotless_outputs stale_output = true ->
        validate_paths (fresh_world stale_output) = (Ok true, w1)
        /\ w_out w1 = []
        /\ exists t,
             w_trace (train (quiet_framework sample_data)
                        (fresh_world stale_output)).2
             = ([] ++ CallLoadmat DATA_TRAIN :: t)%list).
Proof.
  apply (validate_paths_judges_by_glob (quiet_framework sample_data)
           (fresh_world stale_output)).
  vm_compute. reflexivity.
Defined.

(** The claim as it is worded fails where a regular file stands in the
    way: the output directory does not exist, and the validation neither
    creates it nor returns; [os.makedirs] raises, and so does [train]. *)
Lemma missing_output_directory_not_created :
  fs_wf blocked_output_with_data = true
  /\ data_present blocked_output_with_data = true
  /\ exists_b blocked_output_with_data (components OUTPUT_DIR) = false
  /\ (validate_paths (fresh_world blocked_output_with_data)).1
     = Raise (NotADirectoryError ["output"; "synthetic_digits"])
  /\ isdir_b (w_fs (validate_paths (fresh_world blocked_output_with_data)).2)
       (components OUTPUT_DIR) = false
  /\ (train (quiet_framework sample_data) (fresh_world blocked_output_with_data)).1
     = Raise (NotADirectoryError ["output"; "synthetic_digits"])
  /\ w_trace (train (quiet_framework sample_data)
                (fresh_world blocked_output_with_data)).2 = [].
Proof. vm_compute. repeat split; reflexivity. Qed.

(** * Further properties *)

(** ** When the margin loss vanishes *)












(** ** What [load_data] returns *)

Lemma one_hot_length (num_classes k : nat) :
  List.length (one_hot num_classes k) = num_classes.
Proof. unfold one_hot. now rewrite length_map, length_seq. Qed.

Lemma one_hot_nth (num_classes k j : nat) :
  (j < num_classes)%nat ->
  nth j (one_hot num_classes k) 0 = if (j =? k)%nat then 1 else 0.
Proof.
  intros Hj. unfold one_hot.
  rewrite (nth_indep _ 0 ((fun i => if (i =? k)%nat then 1 else 0) O))
    by now rewrite length_map, length_seq.
  rewrite (map_nth (fun i => if (i =? k)%nat then 1 else 0) (seq 0 num_classes) O j).
  now rewrite seq_nth.
Qed.

Lemma label_below_classes (data : matrix) (row : list Z) :
  Forall (fun r => (0 <= hd 0 r)%Z) data ->
  row ∈ data ->
  (Z.to_nat (hd 0%Z row) < classes data)%nat.
Proof.
  intros Hpos Hrow. unfold classes.
  destruct (max_label (map (hd 0%Z) data)) as [m|] eqn:Hm.
  - apply max_label_spec in Hm as [Hle _].
    rewrite Forall_forall in Hle. rewrite Forall_forall in Hpos.
    assert (Hin : hd 0%Z row ∈ map (hd 0%Z) data).
    { apply list_elem_of_In, in_map. now apply list_elem_of_In. }
    specialize (Hle _ Hin). specialize (Hpos _ Hrow). lia.
  - destruct data; [inversion Hrow | discriminate Hm].
Qed.

Lemma labels_one_hot (data : matrix) :
  Forall (fun r => (0 <= hd 0 r)%Z) data ->
  Forall2 (one_hot_for (classes data)) data
    (map (label_of_row (classes data)) data).
Proof.
  intros Hpos.
  assert (Hall : Forall (fun row => (Z.to_nat (hd 0%Z row) < classes data)%nat) data).
  { apply Forall_forall. intros row Hrow. now apply label_below_classes. }
  generalize dependent (classes data). intros K Hall.
  clear Hpos.
  induction Hall as [|row rest Hrow _ IH]; cbn [map]; [constructor |].
  constructor; [| exact IH].
  unfold one_hot_for, label_of_row. split; [apply one_hot_length |].
  split; [exact Hrow |]. intros j Hj. now apply one_hot_nth.
Qed.

(** X2.  For dataset matrices, every row of the labels [load_data]
    returns is one-hot: it has as many entries as the largest label of its
    split plus one (whatever [NUM_TCLASSES] is), a one at the index of the
    label of the matrix row and zeros elsewhere. *)
Theorem load_data_labels_one_hot (fw : framework) (w : world) (train valid : matrix) :
  fw_loadmat fw (w_trace w) DATA_TRAIN = Ok train ->
  fw_loadmat fw (w_trace w ++ [CallLoadmat DATA_TRAIN]) DATA_VALID = Ok valid ->
  well_formed (shuffled_train fw (w_trace w) train) ->
  well_formed (shuffled_valid fw (w_trace w) train valid) ->
  exists x_train y_train x_valid y_valid w',
    load_data fw w = (Ok ((x_train, y_train), (x_valid, y_valid)), w')
    /\ Forall2 (one_hot_for (classes (shuffled_train fw (w_trace w) train)))
         (shuffled_train fw (w_trace w) train) y_train
    /\ Forall2 (one_hot_for (classes (shuffled_valid fw (w_trace w) train valid)))
         (shuffled_valid fw (w_trace w) train valid) y_valid.
Proof.
  intros Htrain Hvalid Hwf_t Hwf_v.
  eexists _, _, _, _, _. split.
  - rewrite (load_data_ok fw w train valid) by assumption.
    unfold split_rows. reflexivity.
  - split; apply labels_one_hot.
    + destruct Hwf_t as [_ Hrows]. eapply Forall_impl; [exact Hrows |].
      now intros row [_ ?].
    + destruct Hwf_v as [_ Hrows]. eapply Forall_impl; [exact Hrows |].
      now intros row [_ ?].
Qed.

Lemma load_data_labels_one_hot_witness :
  exists x_train y_train x_valid y_valid w',
    load_data (quiet_framework sample_data) (fresh_world data_only)
    = (Ok ((x_train, y_train), (x_valid, y_valid)), w')
    /\ Forall2 (one_hot_for
                  (classes (shuffled_train (quiet_framework sample_data) []
                              sample_data)))
         (shuffled_train (quiet_framework sample_data) [] sample_data) y_train
    /\ Forall2 (one_hot_for
                  (classes (shuffled_valid (quiet_framework sample_data) []
                              sample_data sample_data)))
         (shuffled_valid (quiet_framework sample_data) [] sample_data sample_data)
         y_valid.
Proof.
  apply (load_data_labels_one_hot (quiet_framework sample_data)
           (fresh_world data_only) sample_data sample_data).
  - reflexivity.
  - reflexivity.
  - apply well_formed_check. vm_compute. reflexivity.
  - apply well_formed_check. vm_compute. reflexivity.
Defined.

Lemma Forall_chunk_fuel {A} (P : A -> Prop) (n fuel : nat) :
  forall l : list A, Forall P l -> Forall (Forall P) (chunk_fuel fuel n l).
Proof.
  induction fuel as [|fuel IH]; intros l Hl; cbn [chunk_fuel]; [constructor |].
  destruct l as [|x l]; [constructor |].
  constructor; [now apply Forall_take | apply IH; now apply Forall_drop].
Qed.

Lemma to_unit_range_bounds (v : Z) :
  (0 <= v <= 255)%Z -> 0 <= to_unit_range v <= 1.
Proof.
  intros [H0 H255]. unfold to_unit_range.
  assert (Hlow : 0 <= inject_Z v) by (change 0 with (inject_Z 0); now rewrite <- Zle_Qle).
  assert (Hhigh : inject_Z v <= 255)
    by (change 255 with (inject_Z 255); now rewrite <- Zle_Qle).
  split.
  - apply Qle_shift_div_l; [reflexivity | lra].
  - apply Qle_shift_div_r; [reflexivity | lra].
Qed.

Lemma image_of_row_unit (row : list Z) :
  Forall (fun v => (0 <= v <= 255)%Z) (drop 1 row) ->
  Forall (Forall (Forall (fun v => 0 <= v <= 1))) (image_of_row row).
Proof.
  intros Hbytes. unfold image_of_row.
  change INPUT_DSHAPE with (104, 104, 3)%nat. cbv iota beta.
  apply Forall_map. unfold chunk.
  eapply Forall_impl;
    [apply Forall_chunk_fuel, Forall_chunk_fuel, Hbytes |].
  intros r Hr. cbn beta. apply Forall_map.
  eapply Forall_impl; [exact Hr |]. intros px Hpx. cbn beta.
  apply Forall_map. eapply Forall_impl; [exact Hpx |].
  intros v Hv. now apply to_unit_range_bounds.
Qed.

Lemma byte_pixels_check (data : matrix) :
  byte_pixels_b data = true -> byte_pixels data.
Proof.
  unfold byte_pixels_b, byte_pixels. rewrite forallb_forall. intros Hb.
  apply Forall_forall. intros row Hrow. apply list_elem_of_In in Hrow.
  specialize (Hb row Hrow). rewrite forallb_forall in Hb.
  apply Forall_forall. intros v Hv. apply list_elem_of_In in Hv.
  specialize (Hb v Hv). apply andb_prop in Hb as [H0 H255].
  split; [now apply Z.leb_le | now apply Z.leb_le].
Qed.

(** X3.  When the pixels of the dataset matrices are bytes, every entry
    of the images [load_data] returns lies between [0] and [1]. *)
Theorem load_data_images_unit_range (fw : framework) (w : world)
    (train valid : matrix) :
  fw_loadmat fw (w_trace w) DATA_TRAIN = Ok train ->
  fw_loadmat fw (w_trace w ++ [CallLoadmat DATA_TRAIN]) DATA_VALID = Ok valid ->
  well_formed (shuffled_train fw (w_trace w) train) ->
  well_formed (shuffled_valid fw (w_trace w) train valid) ->
  byte_pixels (shuffled_train fw (w_trace w) train) ->
  byte_pixels (shuffled_valid fw (w_trace w) train valid) ->
  exists x_train y_train x_valid y_valid w',
    load_data fw w = (Ok ((x_train, y_train), (x_valid, y_valid)), w')
    /\ unit_range x_train
    /\ unit_range x_valid.
Proof.
  intros Htrain Hvalid Hwf_t Hwf_v Hbytes_t Hbytes_v.
  eexists _, _, _, _, _. split.
  - rewrite (load_data_ok fw w train valid) by assumption.
    unfold split_rows. reflexivity.
  - split; unfold unit_range; apply Forall_map;
      (eapply Forall_impl; [eassumption |]);
      intros row Hrow; now apply image_of_row_unit.
Qed.

Lemma load_data_images_unit_range_witness :
  exists x_train y_train x_valid y_valid w',
    load_data (quiet_framework sample_data) (fresh_world data_only)
    = (Ok ((x_train, y_train), (x_valid, y_valid)), w')
    /\ unit_range x_train
    /\ unit_range x_valid.
Proof.
  apply (load_data_images_unit_range (quiet_framework sample_data)
           (fresh_world data_only) sample_data sample_data).
  - reflexivity.
  - reflexivity.
  - apply well_formed_check. vm_compute. reflexivity.
  - apply well_formed_check. vm_compute. reflexivity.
  - apply byte_pixels_check. vm_compute. reflexivity.
  - apply byte_pixels_check. vm_compute. reflexivity.
Defined.

(** ** [load_data] on matrices of other shapes *)

Section LoadRun.

Context (fw : framework).

(** With both files read, [load_data] is [tensors_of] on the shuffled
    matrices; it has made four calls and touched neither the disk nor the
    standard output. *)
Lemma load_data_run (w : world) (train valid : matrix) :
  fw_loadmat fw (w_trace w) DATA_TRAIN = Ok train ->
  fw_loadmat fw (w_trace w ++ [CallLoadmat DATA_TRAIN]) DATA_VALID = Ok valid ->
  load_data fw w
  = (tensors_of (shuffled_train fw (w_trace w) train)
       (shuffled_valid fw (w_trace w) train valid),
     World (w_fs w) (w_out w)
       (w_trace w ++ [CallLoadmat DATA_TRAIN; CallLoadmat DATA_VALID;
                      CallShuffle train; CallShuffle valid])).
Proof.
  intros Htrain Hvalid.
  unfold load_data, loadmat_data, numpy_random_shuffle.
  unfold bind at 1. unfold extern at 1. rewrite Htrain.
  unfold bind at 1. unfold extern at 1. cbn [w_trace w_fs w_out]. rewrite Hvalid.
  unfold bind at 1. unfold extern at 1. cbn [w_trace w_fs w_out].
  unfold bind at 1. unfold extern at 1. cbn [w_trace w_fs w_out].
  fold (shuffled_train fw (w_trace w) train).
  fold (shuffled_valid fw (w_trace w) train valid).
  rewrite <- !app_assoc. cbn [app].
  unfold tensors_of, images_of, labels_of, load_images, load_labels.
  change (shape_eqb IMAGE_SIZE INPUT_DSHAPE) with true. cbv iota.
  unfold bind, lift, ret.
  destruct (reshape_batch INPUT_DSHAPE
              (List.concat (columns_from_1 (shuffled_train fw (w_trace w) train))));
    [| reflexivity].
  destruct (reshape_batch INPUT_DSHAPE
              (List.concat
                 (columns_from_1 (shuffled_valid fw (w_trace w) train valid))));
    [| reflexivity].
  destruct (column_0 (shuffled_train fw (w_trace w) train)) as [yt|?];
    [| reflexivity].
  destruct (to_categorical yt); [| reflexivity].
  destruct (column_0 (shuffled_valid fw (w_trace w) train valid)) as [yv|?];
    [| reflexivity].
  now destruct (to_categorical yv).
Qed.

End LoadRun.

Lemma reshape_batch_count {A} (h w c n : nat) (flat : list A) :
  (0 < h * w * c)%nat ->
  List.length flat = (n * (h * w * c))%nat ->
  exists x, reshape_batch (h, w, c) flat = Ok x /\ List.length x = n.
Proof.
  intros Hpos Hlen.
  assert (Hh : (0 < h)%nat) by nia.
  assert (Hw : (0 < w)%nat) by nia.
  assert (Hc : (0 < c)%nat) by nia.
  unfold reshape_batch.
  destruct (Nat.eqb_spec (h * w * c) 0) as [H0|_]; [lia |].
  rewrite Hlen, Nat.Div0.mod_mul. cbn [Nat.eqb].
  eexists. split; [reflexivity |].
  apply (length_chunk h n Hh). apply (length_chunk w (n * h) Hw).
  apply (length_chunk c (n * h * w) Hc). rewrite Hlen. lia.
Qed.

Lemma reshape_batch_rejects {A} (h w c : nat) (flat : list A) :
  (List.length flat mod (h * w * c) <> 0)%nat ->
  reshape_batch (h, w, c) flat = Raise (ValueError "cannot reshape array").
Proof.
  intros Hmod. unfold reshape_batch.
  destruct (h * w * c =? 0)%nat; [reflexivity |].
  now destruct (Nat.eqb_spec (List.length flat mod (h * w * c)) 0).
Qed.

Lemma images_of_count (data : matrix) (n : nat) :
  pixel_count data = (n * pixels_per_image)%nat ->
  exists x, images_of data = Ok x /\ List.length x = n.
Proof.
  intros Hcount. unfold images_of.
  change INPUT_DSHAPE with (104, 104, 3)%nat.
  destruct (reshape_batch_count 104 104 3 n (List.concat (columns_from_1 data)))
    as (x & Hx & Hlen); [lia | exact Hcount |].
  rewrite Hx. exists (map scale_image x).
  split; [reflexivity | rewrite length_map; exact Hlen].
Qed.

Lemma labels_of_count (data : matrix) :
  labelled data ->
  exists y, labels_of data = Ok y /\ List.length y = List.length data.
Proof.
  intros [Hne Hrows]. unfold labels_of.
  rewrite column_0_rows by (eapply Forall_impl; [exact Hrows | now intros ? [? _]]).
  destruct (max_label (map (hd 0%Z) data)) as [m|] eqn:Hm.
  - rewrite (to_categorical_labels _ m Hm).
    + eexists. split; [reflexivity |]. now rewrite !length_map.
    + apply Forall_map. eapply Forall_impl; [exact Hrows | now intros ? [_ ?]].
  - destruct data; [done | discriminate Hm].
Qed.

Lemma labelled_check (data : matrix) : labelled_b data = true -> labelled data.
Proof.
  unfold labelled_b, labelled. intros Hb. split.
  - intros ->. discriminate Hb.
  - destruct data as [|row0 data]; [discriminate Hb |].
    rewrite forallb_forall in Hb. apply Forall_forall. intros row Hrow.
    apply list_elem_of_In in Hrow. specialize (Hb row Hrow).
    destruct row as [|v row]; [discriminate Hb |].
    split; [done | now apply Z.leb_le].
Qed.


(** X4.  [load_data] checks the number of pixels of a split as a whole,
    not row by row: when the pixels of the rows add up to [n] images of
    [104 * 104 * 3] entries, it returns [n] images and, all the same, one
    label per row.  With rows of another width the images and the labels
    do not pair, and need not even be as many. *)
Theorem load_data_counts (fw : framework) (w : world) (train valid : matrix)
    (n_train n_valid : nat) :
  fw_loadmat fw (w_trace w) DATA_TRAIN = Ok train ->
  fw_loadmat fw (w_trace w ++ [CallLoadmat DATA_TRAIN]) DATA_VALID = Ok valid ->
  labelled (shuffled_train fw (w_trace w) train) ->
  labelled (shuffled_valid fw (w_trace w) train valid) ->
  pixel_count (shuffled_train fw (w_trace w) train)
  = (n_train * pixels_per_image)%nat ->
  pixel_count (shuffled_valid fw (w_trace w) train valid)
  = (n_valid * pixels_per_image)%nat ->
  exists x_train y_train x_valid y_valid w',
    load_data fw w = (Ok ((x_train, y_train), (x_valid, y_valid)), w')
    /\ List.length x_train = n_train
    /\ List.length y_train = List.length (shuffled_train fw (w_trace w) train)
    /\ List.length x_valid = n_valid
    /\ List.length y_valid
       = List.length (shuffled_valid fw (w_trace w) train valid).
Proof.
  intros Htrain Hvalid Hlab_t Hlab_v Hcount_t Hcount_v.
  rewrite (load_data_run fw w train valid Htrain Hvalid). unfold tensors_of.
  destruct (images_of_count _ _ Hcount_t) as (xt & -> & Hxt).
  destruct (images_of_count _ _ Hcount_v) as (xv & -> & Hxv).
  destruct (labels_of_count _ Hlab_t) as (yt & -> & Hyt).
  destruct (labels_of_count _ Hlab_v) as (yv & -> & Hyv).
  eexists xt, yt, xv, yv, _. split; [reflexivity |].
  split; [exact Hxt | split; [exact Hyt | split; [exact Hxv | exact Hyv]]].
Qed.

Lemma load_data_counts_witness :
  exists x_train y_train x_valid y_valid w',
    load_data (quiet_framework half_rows) (fresh_world data_only)
    = (Ok ((x_train, y_train), (x_valid, y_valid)), w')
    /\ List.length x_train = 1%nat
    /\ List.length y_train
       = List.length (shuffled_train (quiet_framework half_rows) [] half_rows)
    /\ List.length x_valid = 1%nat
    /\ List.length y_valid
       = List.length
           (shuffled_valid (quiet_framework half_rows) [] half_rows half_rows).
Proof.
  apply (load_data_counts (quiet_framework half_rows) (fresh_world data_only)
           half_rows half_rows 1 1).
  - reflexivity.
  - reflexivity.
  - apply labelled_check. vm_compute. reflexivity.
  - apply labelled_check. vm_compute. reflexivity.
  - apply Nat.eqb_eq. vm_compute. reflexivity.
  - apply Nat.eqb_eq. vm_compute. reflexivity.
Defined.

(** X5.  When the pixels of the training rows do not add up to a whole
    number of images, [load_data] raises [ValueError] after the two
    matrices were read and shuffled; nothing is printed and the disk is
    not touched. *)
Theorem load_data_rejects_pixel_count (fw : framework) (w : world)
    (train valid : matrix) :
  fw_loadmat fw (w_trace w) DATA_TRAIN = Ok train ->
  fw_loadmat fw (w_trace w ++ [CallLoadmat DATA_TRAIN]) DATA_VALID = Ok valid ->
  (pixel_count (shuffled_train fw (w_trace w) train) mod pixels_per_image <> 0)%nat ->
  load_data fw w
  = (Raise (ValueError "cannot reshape array"),
     World (w_fs w) (w_out w)
       (w_trace w ++ [CallLoadmat DATA_TRAIN; CallLoadmat DATA_VALID;
                      CallShuffle train; CallShuffle valid])).
Proof.
  intros Htrain Hvalid Hmod.
  rewrite (load_data_run fw w train valid Htrain Hvalid).
  unfold tensors_of, images_of. change INPUT_DSHAPE with (104, 104, 3)%nat.
  now rewrite (reshape_batch_rejects 104 104 3) by exact Hmod.
Qed.

Lemma load_data_rejects_pixel_count_witness :
  load_data (quiet_framework short_rows) (fresh_world data_only)
  = (Raise (ValueError "cannot reshape array"),
     World data_only []
       ([] ++ [CallLoadmat DATA_TRAIN; CallLoadmat DATA_VALID;
               CallShuffle short_rows; CallShuffle short_rows])).
Proof.
  apply (load_data_rejects_pixel_count (quiet_framework short_rows)
           (fresh_world data_only) short_rows short_rows).
  - reflexivity.
  - reflexivity.
  - intros Hmod. apply Nat.eqb_eq in Hmod. vm_compute in Hmod. discriminate Hmod.
Defined.


